(** * zha_toolkit/utils.py: scalar parsing, endpoint and cluster resolution,
      attribute encoding and parameter extraction.

    The Python functions [str2int], [str2bool], [find_endpoint],
    [get_cluster_from_params], [attr_encode] and [extractParams] are
    embedded as Rocq functions.  Exceptions are explicit ([result]);
    the dictionaries the code mutates ([params], [event_data]) are threaded
    through as state.

    Modelling conventions.
    - A Python [str] is a [string] whose characters are the code points
      U+0000 .. U+00FF; the Unicode tables used by [str.lower],
      [str.isnumeric] and [int] are written out for that range.
    - A finite [float] is a dyadic rational [m * 2^e], which every
      finite double is; infinities and NaN are separate values.
    - Logging calls have no effect on results and are left out.
    - The interpreter is a 64-bit one with its default limit of 4300 on
      the digits [int] accepts in a base that is no power of two.
    - Whether the interpreter can allocate a string of a given number of
      bytes depends on the machine: it is a parameter, [can_allocate]. *)

From Stdlib Require Import ZArith List Strings.String Strings.Ascii Strings.Byte Bool Lia.
Import ListNotations.
Open Scope string_scope.
Open Scope Z_scope.

Set Warnings "-register-all".

(** ** Python values *)

(** A [float]: [Finite m e] is the number [m * 2^e]. *)
Inductive pyfloat : Set :=
| Finite (m e : Z)
| Infinite (negative : bool)
| NaN.

Inductive value : Type :=
| VNone
| VBool (b : bool)
| VInt (n : Z)
| VFloat (f : pyfloat)
| VStr (s : string)
| VBytes (b : list byte)
| VList (l : list value)
| VUint8List (l : list Z).  (* an instance of t.List[t.uint8_t] *)

(** The integer a float equals, if it equals one. *)
Definition float_integer (f : pyfloat) : option Z :=
  match f with
  | Finite m e =>
      if 0 <=? e then Some (m * 2 ^ e)
      else if m mod 2 ^ (- e) =? 0 then Some (m / 2 ^ (- e))
      else None
  | Infinite _ | NaN => None
  end.

(** [int(f)] on a finite float: the fraction is dropped, towards zero. *)
Definition float_trunc (m e : Z) : Z :=
  if 0 <=? e then m * 2 ^ e else Z.quot m (2 ^ (- e)).

(** Texts of the messages the code formats; the components that are
    interpolated are kept, the wording is not. *)
Inductive message : Type :=
| Msg_endpoint_not_found (ep : value) (ieee : string)
| Msg_cluster_not_numeric (cluster_id : value)
| Msg_incluster_not_found (cluster_id : value) (ieee : string) (ep : value)
| Msg_using_outcluster (m : message)
| Msg_attr_not_supported (attr_type : value) (attr_val : value).

Inductive exn : Type :=
| TypeError
| ValueError
| KeyError
| AttributeError
| OverflowError
| MemoryError
| Exception (msg : message).

Inductive result (A : Type) : Type :=
| Ok (a : A)
| Raise (e : exn).
Arguments Ok {A} a.
Arguments Raise {A} e.

Definition bind {A B} (r : result A) (k : A -> result B) : result B :=
  match r with
  | Ok a => k a
  | Raise e => Raise e
  end.

Declare Scope py_scope.
Delimit Scope py_scope with py.
Notation "x <- c ;; k" := (bind c (fun x => k))
  (at level 100, c at next level, right associativity) : py_scope.
Open Scope py_scope.

Fixpoint mapM {A B} (f : A -> result B) (l : list A) : result (list B) :=
  match l with
  | [] => Ok []
  | x :: r => y <- f x ;; ys <- mapM f r ;; Ok (y :: ys)
  end.

(** ** Characters and strings *)

Definition ord (c : ascii) : Z := Z.of_N (N_of_ascii c).

Definition between (lo n hi : Z) : bool := (lo <=? n) && (n <=? hi).

(** [str.lower] on one character: A-Z, and the Latin-1 capitals
    U+00C0 .. U+00DE except the multiplication sign U+00D7. *)
Definition lower_char (c : ascii) : ascii :=
  let n := ord c in
  if between 65 n 90 || (between 192 n 222 && negb (n =? 215))
  then ascii_of_N (Z.to_N (n + 32))
  else c.

Fixpoint lower (s : string) : string :=
  match s with
  | EmptyString => EmptyString
  | String c r => String (lower_char c) (lower r)
  end.

(** Characters with a Unicode numeric value: the digits, the superscripts
    one, two, three and the vulgar fractions. *)
Definition isnumeric_char (c : ascii) : bool :=
  let n := ord c in
  between 48 n 57 || (n =? 178) || (n =? 179) || (n =? 185) || between 188 n 190.

Fixpoint all_chars (p : ascii -> bool) (s : string) : bool :=
  match s with
  | EmptyString => true
  | String c r => p c && all_chars p r
  end.

(** [s.isnumeric()]: at least one character, and all of them numeric. *)
Definition isnumeric (s : string) : bool :=
  match s with
  | EmptyString => false
  | _ => all_chars isnumeric_char s
  end.

(** [s.startswith(p)] *)
Fixpoint startswith (p s : string) : bool :=
  match p, s with
  | EmptyString, _ => true
  | String a p', String b s' => (a =? b)%char && startswith p' s'
  | String _ _, EmptyString => false
  end.

(** [s[1:]] *)
Definition slice1 (s : string) : string :=
  match s with
  | EmptyString => EmptyString
  | String _ r => r
  end.

(** ** [int(s, base)] on text

    The interpreter first rewrites the text to ASCII (Unicode white space
    becomes a blank, Unicode decimal digits become ASCII digits, any other
    character above U+007E becomes a question mark), then parses: blanks,
    an optional sign, an optional base prefix followed by at most one
    underscore, digits with single underscores between them, blanks. *)

Definition to_ascii_char (c : ascii) : ascii :=
  let n := ord c in
  if n <? 127 then c
  else if (n =? 133) || (n =? 160) then " "%char
  else "?"%char.

Fixpoint to_ascii (s : string) : string :=
  match s with
  | EmptyString => EmptyString
  | String c r => String (to_ascii_char c) (to_ascii r)
  end.

Definition is_space (c : ascii) : bool :=
  let n := ord c in between 9 n 13 || (n =? 32).

Definition digit_value (c : ascii) : Z :=
  let n := ord c in
  if between 48 n 57 then n - 48
  else if between 97 n 122 then n - 87
  else if between 65 n 90 then n - 55
  else 37.

Fixpoint lstrip (s : string) : string :=
  match s with
  | EmptyString => EmptyString
  | String c r => if is_space c then lstrip r else s
  end.

Definition all_space (s : string) : bool :=
  match lstrip s with
  | EmptyString => true
  | _ => false
  end.

Definition strip_sign (s : string) : bool * string :=
  match s with
  | String c r =>
      if (c =? "+")%char then (false, r)
      else if (c =? "-")%char then (true, r)
      else (false, s)
  | EmptyString => (false, s)
  end.

Definition is_prefix_letter (base : Z) (c : ascii) : bool :=
  ((base =? 16) && ((c =? "x")%char || (c =? "X")%char))
  || ((base =? 8) && ((c =? "o")%char || (c =? "O")%char))
  || ((base =? 2) && ((c =? "b")%char || (c =? "B")%char)).

Definition strip_prefix (base : Z) (s : string) : string :=
  match s with
  | String z (String c r) =>
      if (z =? "0")%char && is_prefix_letter base c then
        match r with
        | String u r' => if (u =? "_")%char then r' else r
        | EmptyString => r
        end
      else s
  | _ => s
  end.

(** Digits and underscores: [prev_us] says the previous character was an
    underscore, [seen] that a character was consumed.  Returns the value
    and the text left. *)
Fixpoint scan_digits (base : Z) (s : string) (prev_us seen : bool) (acc : Z)
  : option (Z * string) :=
  let stop := if prev_us then None
              else if seen then Some (acc, s) else None in
  match s with
  | EmptyString => stop
  | String c r =>
      if (c =? "_")%char then
        if prev_us then None else scan_digits base r true true acc
      else if digit_value c <? base then
        scan_digits base r false true (acc * base + digit_value c)
      else stop
  end.

(** The most digits [int] accepts in a base that is no power of two:
    the default of [sys.int_max_str_digits]. *)
Definition int_max_str_digits : Z := 4300.

Definition is_binary_base (base : Z) : bool :=
  (base =? 2) || (base =? 4) || (base =? 8) || (base =? 16) || (base =? 32).

(** The digits the scan passes over; underscores are not counted. *)
Fixpoint count_digits (base : Z) (s : string) : Z :=
  match s with
  | EmptyString => 0
  | String c r =>
      if (c =? "_")%char then count_digits base r
      else if digit_value c <? base then 1 + count_digits base r
      else 0
  end.

Definition digits_allowed (base : Z) (s : string) : bool :=
  is_binary_base base || (count_digits base s <=? int_max_str_digits).

Definition parse_int (base : Z) (s : string) : option Z :=
  let '(neg, s2) := strip_sign (lstrip s) in
  let s3 := strip_prefix base s2 in
  match s3 with
  | String "_" _ => None
  | _ =>
      match scan_digits base s3 false false 0 with
      | Some (n, rest) =>
          if all_space rest then
            if digits_allowed base s3 then Some (if neg then - n else n)
            else None
          else None
      | None => None
      end
  end.

(** [int(s, base)] for a [str]; a text that does not parse raises
    ValueError. *)
Definition py_int (base : Z) (s : string) : result value :=
  match parse_int base (to_ascii s) with
  | Some n => Ok (VInt n)
  | None => Raise ValueError
  end.

(** ** str2int *)

Definition str2int (s : value) : result value :=
  match s with
  | VStr x =>
      if (lower x =? "false")%string then Ok (VInt 0)
      else if (lower x =? "true")%string then Ok (VInt 1)
      else if startswith "0x" x || startswith "0X" x then py_int 16 x
      else if startswith "0" x && isnumeric x then py_int 8 x
      else if startswith "b" x && isnumeric (slice1 x) then py_int 2 (slice1 x)
      else if isnumeric x then py_int 10 x
      else Ok s
  | _ => Ok s
  end.

(** ** str2bool *)

(** [v == n] for an integer literal [n]: booleans compare as 0 and 1. *)
Definition py_eq_int (v : value) (n : Z) : bool :=
  match v with
  | VInt m => m =? n
  | VBool b => (if b then 1 else 0) =? n
  | VFloat f =>
      match float_integer f with
      | Some m => m =? n
      | None => false
      end
  | _ => false
  end.

(** [v == ""] *)
Definition py_eq_empty_str (v : value) : bool :=
  match v with
  | VStr EmptyString => true
  | _ => false
  end.

Definition is_None (v : value) : bool :=
  match v with
  | VNone => true
  | _ => false
  end.

Definition str2bool (s : value) : result value :=
  if is_None s || py_eq_empty_str s then Ok (VBool false)
  else match s with
       | VBool _ => Ok s
       | _ => v <- str2int s ;; Ok (VBool (negb (py_eq_int v 0)))
       end.

(** ** Dictionaries

    A dictionary is a list of entries in insertion order; assigning to a
    key that is present replaces its value in place. *)

Section Dict.
Context {K V : Type} (eqb : K -> K -> bool).

Fixpoint dict_get (d : list (K * V)) (k : K) : option V :=
  match d with
  | [] => None
  | (k', v) :: r => if eqb k k' then Some v else dict_get r k
  end.

Fixpoint dict_set (d : list (K * V)) (k : K) (v : V) : list (K * V) :=
  match d with
  | [] => [(k, v)]
  | (k', v') :: r =>
      if eqb k k' then (k', v) :: r else (k', v') :: dict_set r k v
  end.

Definition dict_mem (d : list (K * V)) (k : K) : bool :=
  match dict_get d k with
  | Some _ => true
  | None => false
  end.
End Dict.

(** Hashing a value for a lookup in a dictionary with integer keys:
    lists are unhashable, a boolean or a float is the integer it equals
    (if any), and no other value equals an integer key. *)
Definition int_key (v : value) : result (option Z) :=
  match v with
  | VInt n => Ok (Some n)
  | VBool b => Ok (Some (if b then 1 else 0))
  | VFloat f => Ok (float_integer f)
  | VList _ | VUint8List _ => Raise TypeError
  | VNone | VStr _ | VBytes _ => Ok None
  end.

(** [x in d] *)
Definition py_in {A} (x : value) (d : list (Z * A)) : result bool :=
  k <- int_key x ;;
  Ok (match k with
      | Some n => dict_mem Z.eqb d n
      | None => false
      end).

(** [d[x]] *)
Definition py_getitem {A} (d : list (Z * A)) (x : value) : result A :=
  k <- int_key x ;;
  match k with
  | Some n =>
      match dict_get Z.eqb d n with
      | Some a => Ok a
      | None => Raise KeyError
      end
  | None => Raise KeyError
  end.

(** ** Parameter names

    [params.py] declares the names of the user parameters ([P]) and of
    the internal parameters ([p]); only their identity matters here, so
    each name is a constructor. *)

Module P.
Inductive key : Set :=
| ENDPOINT | CLUSTER | ATTRIBUTE | ATTR_TYPE | ATTR_VAL | CODE | CMD | DIR
| MANF | TRIES | EXPECT_REPLY | FAIL_EXCEPTION | ARGS | MIN_INTRVL
| MAX_INTRVL | REPTBLE_CHG | STATE_ID | STATE_ATTR | READ_BEFORE_WRITE
| READ_AFTER_WRITE | WRITE_IF_EQUAL | ALLOW_CREATE | EVENT_DONE
| EVENT_FAIL | EVENT_SUCCESS | OUTCSV | CSVLABEL.

Definition eq_dec (a b : key) : {a = b} + {a <> b}.
Proof. decide equality. Defined.

Definition eqb (a b : key) : bool := if eq_dec a b then true else false.
End P.

Module p.
Inductive key : Set :=
| CMD_ID | EP_ID | CLUSTER_ID | ATTR_ID | ATTR_TYPE | ATTR_VAL | CODE
| MIN_INTERVAL | MAX_INTERVAL | REPORTABLE_CHANGE | DIR | MANF | TRIES
| EXPECT_REPLY | ARGS | STATE_ID | STATE_ATTR | ALLOW_CREATE | EVT_SUCCESS
| EVT_FAIL | EVT_DONE | FAIL_EXCEPTION | READ_BEFORE_WRITE
| READ_AFTER_WRITE | WRITE_IF_EQUAL | CSV_FILE | CSV_LABEL.

Definition eq_dec (a b : key) : {a = b} + {a <> b}.
Proof. decide equality. Defined.

Definition eqb (a b : key) : bool := if eq_dec a b then true else false.
End p.

Definition raw_params := list (P.key * value).
Definition params_dict := list (p.key * value).

(** ** Devices *)

Record Endpoint (C : Type) : Type := {
  in_clusters : list (Z * C);
  out_clusters : list (Z * C)
}.
Arguments in_clusters {C} _.
Arguments out_clusters {C} _.

Record Device (C : Type) : Type := {
  endpoints : list (Z * Endpoint C);
  ieee : string
}.
Arguments endpoints {C} _.
Arguments ieee {C} _.

(** What [dev.enddev] would be if a device had such an attribute. *)
Record EndDev (C : Type) : Type := {
  points : list (Z * Endpoint C)
}.
Arguments points {C} _.

(** [dev.enddev]: a device has no attribute of that name, and defines no
    fallback for missing attributes. *)
Definition enddev {C} (dev : Device C) : result (EndDev C) :=
  Raise AttributeError.

(** ** find_endpoint *)

(** One [for key, value in dev.endpoints.items()] loop; [side] selects
    the cluster dictionary the loop body tests.  The state is
    [(cnt, endpoint_id)]. *)
Fixpoint count_endpoints {C} (side : Endpoint C -> list (Z * C))
    (cluster_id : value) (items : list (Z * Endpoint C))
    (st : Z * option Z) : result (Z * option Z) :=
  match items with
  | [] => Ok st
  | (key, value) :: rest =>
      if key =? 0 then count_endpoints side cluster_id rest st
      else
        hit <- py_in cluster_id (side value) ;;
        count_endpoints side cluster_id rest
          (if hit then (fst st + 1, Some key) else st)
  end.

Definition find_endpoint {C} (dev : Device C) (cluster_id : value)
  : result (option Z) :=
  st <- count_endpoints in_clusters cluster_id (endpoints dev) (0, None) ;;
  st <- (if fst st =? 0
         then count_endpoints in_clusters cluster_id (endpoints dev) st
         else Ok st) ;;
  let '(cnt, endpoint_id) := st in
  let endpoint_id := if 1 <? cnt then None else endpoint_id in
  Ok endpoint_id.

(** ** get_cluster_from_params

    The function mutates [params] and [event_data]; both are the state
    of a small state-and-exception monad.  A raised exception leaves the
    mutations made so far in place. *)

(** Of [event_data] only the entry under "warnings" is read or written. *)
Record EventData : Type := {
  warnings : option (list message)
}.

Record state : Type := {
  st_params : params_dict;
  st_event_data : EventData
}.

Definition M (A : Type) : Type := state -> state * result A.

Definition ret {A} (a : A) : M A := fun s => (s, Ok a).

Definition bindM {A B} (m : M A) (k : A -> M B) : M B :=
  fun s =>
    match m s with
    | (s', Ok a) => k a s'
    | (s', Raise e) => (s', Raise e)
    end.

Definition lift {A} (r : result A) : M A := fun s => (s, r).

Definition raise {A} (e : exn) : M A := lift (Raise e).

Notation "x <~ c ;; k" := (bindM c (fun x => k))
  (at level 100, c at next level, right associativity) : py_scope.

(** [params[k]] *)
Definition params_get (k : p.key) : M value :=
  fun s =>
    (s, match dict_get p.eqb (st_params s) k with
        | Some v => Ok v
        | None => Raise KeyError
        end).

(** [params[k] = v] *)
Definition params_set (k : p.key) (v : value) : M unit :=
  fun s =>
    ({| st_params := dict_set p.eqb (st_params s) k v;
        st_event_data := st_event_data s |}, Ok tt).

(** [if "warnings" not in event_data: event_data["warnings"] = []]
    followed by [event_data["warnings"].append(msg)] *)
Definition warnings_append (msg : message) : M unit :=
  fun s =>
    let l := match warnings (st_event_data s) with
             | Some l => l
             | None => []
             end in
    ({| st_params := st_params s;
        st_event_data := {| warnings := Some (l ++ [msg])%list |} |}, Ok tt).

Definition isinstance_int (v : value) : bool :=
  match v with
  | VInt _ | VBool _ => true
  | _ => false
  end.

(** The value [find_endpoint] returns, as stored in [params]. *)
Definition of_endpoint_id (e : option Z) : value :=
  match e with
  | Some k => VInt k
  | None => VNone
  end.

Definition get_cluster_from_params {C} (dev : Device C) : M C :=
  (* Get best endpoint *)
  ep <~ params_get p.EP_ID ;;
  _ <~ (if is_None ep || py_eq_empty_str ep then
          cid <~ params_get p.CLUSTER_ID ;;
          found <~ lift (find_endpoint dev cid) ;;
          params_set p.EP_ID (of_endpoint_id found)
        else ret tt) ;;
  ep <~ params_get p.EP_ID ;;
  present <~ lift (py_in ep (endpoints dev)) ;;
  if negb present then
    raise (Exception (Msg_endpoint_not_found ep (ieee dev)))
  else
    cluster_id <~ params_get p.CLUSTER_ID ;;
    if negb (isinstance_int cluster_id) then
      raise (Exception (Msg_cluster_not_numeric cluster_id))
    else
      ep <~ params_get p.EP_ID ;;
      e <~ lift (py_getitem (endpoints dev) ep) ;;
      present <~ lift (py_in cluster_id (in_clusters e)) ;;
      if negb present then
        ep <~ params_get p.EP_ID ;;
        let msg := Msg_incluster_not_found cluster_id (ieee dev) ep in
        ed <~ lift (enddev dev) ;;
        ep <~ params_get p.EP_ID ;;
        e' <~ lift (py_getitem (points ed) ep) ;;
        out <~ lift (py_in cluster_id (out_clusters e')) ;;
        if out then
          let msg := Msg_using_outcluster msg in
          _ <~ warnings_append msg ;;
          ep <~ params_get p.EP_ID ;;
          e'' <~ lift (py_getitem (endpoints dev) ep) ;;
          lift (py_getitem (out_clusters e'') cluster_id)
        else
          raise (Exception msg)
      else
        ep <~ params_get p.EP_ID ;;
        e <~ lift (py_getitem (endpoints dev) ep) ;;
        lift (py_getitem (in_clusters e) cluster_id).

(** ** zigpy types *)

(** The fixed-width integer classes of [zigpy.types] the code names. *)
Inductive int_type : Set :=
| uint8_t | uint16_t | uint24_t | uint32_t | uint48_t | uint56_t | uint64_t
| int8s | int16s | int24s | int32s | int48s | int56s | int64s.

Definition bits (ty : int_type) : Z :=
  match ty with
  | uint8_t | int8s => 8
  | uint16_t | int16s => 16
  | uint24_t | int24s => 24
  | uint32_t | int32s => 32
  | uint48_t | int48s => 48
  | uint56_t | int56s => 56
  | uint64_t | int64s => 64
  end.

Definition signed (ty : int_type) : bool :=
  match ty with
  | int8s | int16s | int24s | int32s | int48s | int56s | int64s => true
  | _ => false
  end.

Definition min_value (ty : int_type) : Z :=
  if signed ty then - 2 ^ (bits ty - 1) else 0.

Definition max_value (ty : int_type) : Z :=
  if signed ty then 2 ^ (bits ty - 1) - 1 else 2 ^ bits ty - 1.

Definition string_of_bytes (b : list byte) : string :=
  string_of_list_ascii (map ascii_of_byte b).

(** [int(v)]: the integer behind a fixed-width integer, before its range
    is checked. *)
Definition py_int_of (v : value) : result Z :=
  match v with
  | VInt n => Ok n
  | VBool b => Ok (if b then 1 else 0)
  | VStr s =>
      match parse_int 10 (to_ascii s) with
      | Some n => Ok n
      | None => Raise ValueError
      end
  | VBytes b =>
      match parse_int 10 (string_of_bytes b) with
      | Some n => Ok n
      | None => Raise ValueError
      end
  | VFloat (Finite m e) => Ok (float_trunc m e)
  | VFloat (Infinite _) => Raise OverflowError
  | VFloat NaN => Raise ValueError
  | VNone | VList _ | VUint8List _ => Raise TypeError
  end.

(** [ty(v)]: a fixed-width integer checks its range when it is built. *)
Definition int_new (ty : int_type) (v : value) : result Z :=
  n <- py_int_of v ;;
  if (min_value ty <=? n) && (n <=? max_value ty) then Ok n
  else Raise ValueError.

Definition zero_byte : byte := x00.

Definition byte_of_Z (n : Z) : result byte :=
  if (0 <=? n) && (n <? 256) then
    match Byte.of_N (Z.to_N n) with
    | Some b => Ok b
    | None => Raise ValueError
    end
  else Raise ValueError.

(** An element of a sequence given to [bytes]. *)
Definition byte_of_value (v : value) : result byte :=
  match v with
  | VInt n => byte_of_Z n
  | VBool b => byte_of_Z (if b then 1 else 0)
  | _ => Raise TypeError
  end.

(** The largest size of a byte string: the largest index less the
    header of the object (33 bytes). *)
Definition max_bytes_size : Z := 2 ^ 63 - 1 - 33.

(** [bytes(v)] with one argument.  [bytes(n)] is [n] zero bytes when the
    interpreter can allocate them, which [can_allocate] tells. *)
Definition py_bytes (can_allocate : Z -> bool) (v : value)
  : result (list byte) :=
  match v with
  | VBytes b => Ok b
  | VInt n =>
      if n <? 0 then Raise ValueError
      else if max_bytes_size <? n then Raise OverflowError
      else if can_allocate n then Ok (repeat zero_byte (Z.to_nat n))
      else Raise MemoryError
  | VBool b => Ok (repeat zero_byte (if b then 1%nat else 0%nat))
  | VList l => mapM byte_of_value l
  | VUint8List l => mapM byte_of_Z l
  | VStr _ | VNone | VFloat _ => Raise TypeError
  end.

(** [t.LVBytes] is a subclass of [bytes] with no constructor of its own. *)
Definition LVBytes (can_allocate : Z -> bool) (v : value)
  : result (list byte) := py_bytes can_allocate v.

(** [LVBytes.serialize]: one byte of length, then the content. *)
Definition LVBytes_serialize (b : list byte) : result (list byte) :=
  if 255 <=? Z.of_nat (List.length b) then Raise ValueError
  else
    l <- byte_of_Z (Z.of_nat (List.length b)) ;;
    Ok (l :: b).

(** [bytes(s, "utf-8")] for code points below U+0100. *)
Definition utf8_char (c : ascii) : list Z :=
  let n := ord c in
  if n <? 128 then [n]
  else [Z.lor 192 (Z.shiftr n 6); Z.lor 128 (Z.land n 63)].

Fixpoint utf8_codes (s : string) : list Z :=
  match s with
  | EmptyString => []
  | String c r => (utf8_char c ++ utf8_codes r)%list
  end.

Definition utf8 (s : string) : list byte :=
  map (fun n => match Byte.of_N (Z.to_N n) with
                | Some b => b
                | None => zero_byte
                end) (utf8_codes s).

(** [[t.uint8_t(i) for i in l]] *)
Definition uint8_list (l : list value) : result (list Z) :=
  mapM (int_new uint8_t) l.

(** ** attr_encode *)

Section AttrEncode.
(** Whether the interpreter can allocate a byte string of a size. *)
Variable can_allocate : Z -> bool.

(** Instances of [t.Bool], and its constructor. *)
Variable BoolT : Type.
Variable t_Bool : value -> result BoolT.

(** The classes found in [f.DATA_TYPES], their instances, and what
    calling a class on a Python value or on an instance gives. *)
Variable DataType : Type.
Variable DataT : Type.
Variable construct : DataType -> value + DataT -> result DataT.

(** [f.DATA_TYPES]: datatype code to [(name, class, ...)]; the entry
    kept here is the class at index 1. *)
Variable DATA_TYPES : list (Z * DataType).

Inductive payload : Type :=
| P_Bool (b : BoolT)
| P_int (ty : int_type) (n : Z)
| P_LVBytes (b : list byte)
| P_data (d : DataT).

(** [f.TypeValue(type, value)] *)
Record TypeValue : Type := {
  tv_type : value;
  tv_value : payload
}.

Inductive cmpval : Type :=
| CV (v : value)
| CV_LVBytes (b : list byte)
| CV_data (d : DataT).

(** What a branch leaves behind: [attr_obj], [attr_val_in] (the octet
    string branch rebinds it) and [compare_val]. *)
Definition branch : Type := option TypeValue * value * cmpval.

Definition encode_int (ty : int_type) (attr_val_in attr_type : value)
  : result branch :=
  compare_val <- str2int attr_val_in ;;
  n <- int_new ty compare_val ;;
  Ok (Some {| tv_type := attr_type; tv_value := P_int ty n |},
      attr_val_in, CV compare_val).

Definition is_list (v : value) : bool :=
  match v with
  | VList _ | VUint8List _ => true
  | _ => false
  end.

Definition list_items (v : value) : list value :=
  match v with
  | VList l => l
  | VUint8List l => map VInt l
  | _ => []
  end.

Definition attr_encode (attr_val_in attr_type : value)
  : result (option TypeValue * option message * cmpval) :=
  r <- (if py_eq_int attr_type 0x10 then
          compare_val <- str2int attr_val_in ;;
          b <- t_Bool compare_val ;;
          Ok (Some {| tv_type := attr_type; tv_value := P_Bool b |},
              attr_val_in, CV compare_val)
        else if py_eq_int attr_type 0x20 then
          encode_int uint8_t attr_val_in attr_type
        else if py_eq_int attr_type 0x21 then
          encode_int uint16_t attr_val_in attr_type
        else if py_eq_int attr_type 0x22 then
          encode_int uint24_t attr_val_in attr_type
        else if py_eq_int attr_type 0x23 then
          encode_int uint32_t attr_val_in attr_type
        else if py_eq_int attr_type 0x24 then
          encode_int uint32_t attr_val_in attr_type
        else if py_eq_int attr_type 0x25 then
          encode_int uint48_t attr_val_in attr_type
        else if py_eq_int attr_type 0x26 then
          encode_int uint56_t attr_val_in attr_type
        else if py_eq_int attr_type 0x27 then
          encode_int uint64_t attr_val_in attr_type
        else if py_eq_int attr_type 0x28 then
          encode_int int8s attr_val_in attr_type
        else if py_eq_int attr_type 0x29 then
          encode_int int16s attr_val_in attr_type
        else if py_eq_int attr_type 0x2A then
          encode_int int24s attr_val_in attr_type
        else if py_eq_int attr_type 0x2B then
          encode_int int32s attr_val_in attr_type
        else if py_eq_int attr_type 0x2C then
          encode_int int32s attr_val_in attr_type
        else if py_eq_int attr_type 0x2D then
          encode_int int48s attr_val_in attr_type
        else if py_eq_int attr_type 0x2E then
          encode_int int56s attr_val_in attr_type
        else if py_eq_int attr_type 0x2F then
          encode_int int64s attr_val_in attr_type
        else if py_eq_int attr_type 0x41 || py_eq_int attr_type 0x42 then
          (* Octet string requires length -> LVBytes *)
          compare_val <- LVBytes can_allocate attr_val_in ;;
          let attr_val_in :=
            match attr_val_in with
            | VStr s => VBytes (utf8 s)
            | _ => attr_val_in
            end in
          attr_val_in <-
            (if is_list attr_val_in then
               l <- uint8_list (list_items attr_val_in) ;;
               Ok (VUint8List l)
             else Ok attr_val_in) ;;
          b <- LVBytes can_allocate attr_val_in ;;
          Ok (Some {| tv_type := attr_type; tv_value := P_LVBytes b |},
              attr_val_in, CV_LVBytes compare_val)
        else if py_eq_int attr_type 0xFF || is_None attr_type then
          compare_val <- str2int attr_val_in ;;
          b <- LVBytes can_allocate compare_val ;;
          Ok (Some {| tv_type := attr_type; tv_value := P_LVBytes b |},
              attr_val_in, CV compare_val)
        else
          (* Try to apply conversion using foundation DATA_TYPES table *)
          data_type <- py_getitem DATA_TYPES attr_type ;;
          v <- str2int attr_val_in ;;
          compare_val <- construct data_type (inl v) ;;
          d <- construct data_type (inr compare_val) ;;
          Ok (Some {| tv_type := attr_type; tv_value := P_data d |},
              attr_val_in, CV_data compare_val)) ;;
  let '(attr_obj, attr_val_in, compare_val) := r in
  let msg := match attr_obj with
             | None => Some (Msg_attr_not_supported attr_type attr_val_in)
             | Some _ => None
             end in
  Ok (attr_obj, msg, compare_val).
End AttrEncode.

Arguments P_Bool {BoolT DataT} b.
Arguments P_int {BoolT DataT} ty n.
Arguments P_LVBytes {BoolT DataT} b.
Arguments P_data {BoolT DataT} d.
Arguments Build_TypeValue {BoolT DataT}.
Arguments tv_type {BoolT DataT}.
Arguments tv_value {BoolT DataT}.
Arguments CV {DataT} v.
Arguments CV_LVBytes {DataT} b.
Arguments CV_data {DataT} d.
Arguments attr_encode can_allocate {BoolT} t_Bool {DataType DataT} construct
  DATA_TYPES.

(** ** extractParams *)

(** The dictionary [params] is initialised to. *)
Definition initial_params : params_dict :=
  [ (p.CMD_ID, VNone);
    (p.EP_ID, VNone);
    (p.CLUSTER_ID, VNone);
    (p.ATTR_ID, VNone);
    (p.ATTR_TYPE, VNone);
    (p.ATTR_VAL, VNone);
    (p.CODE, VNone);
    (p.MIN_INTERVAL, VNone);
    (p.MAX_INTERVAL, VNone);
    (p.REPORTABLE_CHANGE, VNone);
    (p.DIR, VInt 0);
    (p.MANF, VNone);
    (p.TRIES, VInt 1);
    (p.EXPECT_REPLY, VBool true);
    (p.ARGS, VList []);
    (p.STATE_ID, VNone);
    (p.STATE_ATTR, VNone);
    (p.ALLOW_CREATE, VBool false);
    (p.EVT_SUCCESS, VNone);
    (p.EVT_FAIL, VNone);
    (p.EVT_DONE, VNone);
    (p.FAIL_EXCEPTION, VBool false);
    (p.READ_BEFORE_WRITE, VBool true);
    (p.READ_AFTER_WRITE, VBool true);
    (p.WRITE_IF_EQUAL, VBool false);
    (p.CSV_FILE, VNone);
    (p.CSV_LABEL, VNone) ].

(** [if K in rawParams: params[k] = f(rawParams[K])] *)
Definition convert (rawParams : raw_params) (K : P.key) (k : p.key)
    (f : value -> result value) (params : params_dict) : result params_dict :=
  match dict_get P.eqb rawParams K with
  | Some v => x <- f v ;; Ok (dict_set p.eqb params k x)
  | None => Ok params
  end.

(** [str2int(v) == 0] *)
Definition is_zero (v : value) : result value :=
  x <- str2int v ;; Ok (VBool (py_eq_int x 0)).

(** [for val in v] *)
Definition py_iter (v : value) : result (list value) :=
  match v with
  | VList l => Ok l
  | VUint8List l => Ok (map VInt l)
  | VStr s => Ok (map (fun c => VStr (String c EmptyString)) (list_ascii_of_string s))
  | VBytes b => Ok (map (fun x => VInt (Z.of_N (Byte.to_N x))) b)
  | VNone | VBool _ | VInt _ | VFloat _ => Raise TypeError
  end.

Definition convert_arg (val : value) : result value :=
  lval <- str2int val ;;
  match lval with
  | VList l => l' <- uint8_list l ;; Ok (VUint8List l')
  | VUint8List l => l' <- uint8_list (map VInt l) ;; Ok (VUint8List l')
  | _ => Ok lval
  end.

Definition convert_args (v : value) : result value :=
  vals <- py_iter v ;;
  cmd_args <- mapM convert_arg vals ;;
  Ok (VList cmd_args).

Definition is_True (v : value) : bool :=
  match v with
  | VBool true => true
  | _ => false
  end.

Definition allow_create (v : value) : result value :=
  allow <- str2int v ;;
  Ok (VBool (negb (is_None allow) && (is_True allow || py_eq_int allow 1))).

Definition force_empty_manf (params : params_dict) : result params_dict :=
  match dict_get p.eqb params p.MANF with
  | Some manf =>
      if py_eq_empty_str manf || py_eq_int manf 0
      then Ok (dict_set p.eqb params p.MANF (VBytes []))
      else Ok params
  | None => Raise KeyError
  end.

Definition extractParams (rawParams : raw_params) : result params_dict :=
  let params := initial_params in
  params <- convert rawParams P.ENDPOINT p.EP_ID str2int params ;;
  params <- convert rawParams P.CLUSTER p.CLUSTER_ID str2int params ;;
  params <- convert rawParams P.ATTRIBUTE p.ATTR_ID str2int params ;;
  params <- convert rawParams P.ATTR_TYPE p.ATTR_TYPE str2int params ;;
  params <- convert rawParams P.ATTR_VAL p.ATTR_VAL str2int params ;;
  params <- convert rawParams P.CODE p.CODE str2int params ;;
  params <- convert rawParams P.CMD p.CMD_ID str2int params ;;
  params <- convert rawParams P.DIR p.DIR str2int params ;;
  params <- convert rawParams P.MANF p.MANF str2int params ;;
  params <- force_empty_manf params ;;
  params <- convert rawParams P.TRIES p.TRIES str2int params ;;
  params <- convert rawParams P.EXPECT_REPLY p.EXPECT_REPLY is_zero params ;;
  params <- convert rawParams P.FAIL_EXCEPTION p.FAIL_EXCEPTION is_zero params ;;
  params <- convert rawParams P.ARGS p.ARGS convert_args params ;;
  params <- convert rawParams P.MIN_INTRVL p.MIN_INTERVAL str2int params ;;
  params <- convert rawParams P.MAX_INTRVL p.MAX_INTERVAL str2int params ;;
  params <- convert rawParams P.REPTBLE_CHG p.REPORTABLE_CHANGE str2int params ;;
  params <- convert rawParams P.STATE_ID p.STATE_ID Ok params ;;
  params <- convert rawParams P.STATE_ATTR p.STATE_ATTR Ok params ;;
  params <- convert rawParams P.READ_BEFORE_WRITE p.READ_BEFORE_WRITE str2bool params ;;
  params <- convert rawParams P.READ_AFTER_WRITE p.READ_AFTER_WRITE str2bool params ;;
  params <- convert rawParams P.WRITE_IF_EQUAL p.WRITE_IF_EQUAL str2bool params ;;
  params <- convert rawParams P.STATE_ATTR p.STATE_ATTR Ok params ;;
  params <- convert rawParams P.ALLOW_CREATE p.ALLOW_CREATE allow_create params ;;
  params <- convert rawParams P.EVENT_DONE p.EVT_DONE Ok params ;;
  params <- convert rawParams P.EVENT_FAIL p.EVT_FAIL Ok params ;;
  params <- convert rawParams P.EVENT_SUCCESS p.EVT_SUCCESS Ok params ;;
  params <- convert rawParams P.OUTCSV p.CSV_FILE Ok params ;;
  params <- convert rawParams P.CSVLABEL p.CSV_LABEL Ok params ;;
  Ok params.

(** ** RadioType and the radio probes *)

Inductive RadioType : Set :=
| UNKNOWN
| ZNP
| EZSP.

(** [BELLOWS = 2] repeats the value of [EZSP]: in an [Enum] it is another
    name of the same member. *)
Definition BELLOWS : RadioType := EZSP.

Definition RadioType_value (r : RadioType) : Z :=
  match r with
  | UNKNOWN => 0
  | ZNP => 1
  | EZSP => 2
  end.

(** Of the application object the probes read the attributes [_znp] and
    [_ezsp], which it has or not. *)
Record App (R : Type) : Type := {
  _znp : option R;
  _ezsp : option R
}.
Arguments _znp {R} _.
Arguments _ezsp {R} _.

Definition get_radiotype {R} (app : App R) : RadioType :=
  match _znp app with
  | Some _ => ZNP
  | None =>
      match _ezsp app with
      | Some _ => EZSP
      | None => UNKNOWN
      end
  end.

(** [get_radio] returns the radio object, or the enumeration member
    [RadioType.UNKNOWN]. *)
Definition get_radio {R} (app : App R) : R + RadioType :=
  match _znp app with
  | Some r => inl r
  | None =>
      match _ezsp app with
      | Some r => inl r
      | None => inr UNKNOWN
      end
  end.

(** [get_radio_version]; the two texts are the [__version__] of the
    modules [zigpy_znp] and [bellows]. *)
Definition get_radio_version {R} (zigpy_znp_version bellows_version : string)
    (app : App R) : option string :=
  match _znp app with
  | Some _ => Some zigpy_znp_version
  | None =>
      match _ezsp app with
      | Some _ => Some bellows_version
      | None => None
      end
  end.

(** ** get_ieee *)

(** [s.count(c)] for a one-character [c]. *)
Fixpoint count_char (c : ascii) (s : string) : Z :=
  match s with
  | EmptyString => 0
  | String a r => (if (a =? c)%char then 1 else 0) + count_char c r
  end.

(** An entry of the entity registry, and one of the device registry. *)
Record RegistryEntity : Type := {
  platform : string;
  device_id : string
}.

Record RegistryDevice : Type := {
  identifiers : list (string * string)
}.

(** What [get_ieee] returns: an address, [None], or the reference as it
    was given. *)
Inductive ieee_ref (E : Type) : Type :=
| Address (e : E)
| NoAddress
| AsGiven (ref : value).
Arguments Address {E} e.
Arguments NoAddress {E}.
Arguments AsGiven {E} ref.

Section GetIeee.
(** Addresses and [t.EUI64.convert]. *)
Variable EUI64 : Type.
Variable EUI64_convert : string -> result EUI64.

(** [app.get_device(nwk=nwk)], reduced to the address of the device. *)
Variable get_device_by_nwk : Z -> result (option EUI64).

(** [entity_registry.async_get] and [device_registry.async_get]. *)
Variable entity_registry : string -> option RegistryEntity.
Variable device_registry : string -> option RegistryDevice.

(** The loop over [registry_device.identifiers]. *)
Fixpoint first_zha (ids : list (string * string)) : result (ieee_ref EUI64) :=
  match ids with
  | [] => Ok NoAddress
  | identifier :: rest =>
      if (fst identifier =? "zha")%string
      then e <- EUI64_convert (snd identifier) ;; Ok (Address e)
      else first_zha rest
  end.

(** The part of [get_ieee] that asks the registries. *)
Definition registry_lookup (s : string) : result (ieee_ref EUI64) :=
  match entity_registry s with
  | None => Ok NoAddress
  | Some registry_entity =>
      if negb (platform registry_entity =? "zha")%string then Ok NoAddress
      else
        match device_registry (device_id registry_entity) with
        | None => Raise AttributeError
        | Some registry_device => first_zha (identifiers registry_device)
        end
  end.

Definition get_ieee (ref : value) : result (ieee_ref EUI64) :=
  match ref with
  | VStr s =>
      (* Check if valid ref address *)
      if count_char ":" s =? 7 then
        e <- EUI64_convert s ;; Ok (Address e)
      else
        (* Check if network address *)
        nwk <- str2int ref ;;
        match nwk with
        | VInt n =>
            if (0x0000 <=? n) && (n <=? 0xFFF7) then
              device <- get_device_by_nwk n ;;
              match device with
              | None => Ok NoAddress
              | Some e => Ok (Address e)
              end
            else registry_lookup s
        | _ => registry_lookup s
        end
  | _ =>
      (* Other type, suppose it's already an EUI64 *)
      Ok (AsGiven ref)
  end.
End GetIeee.

(** ** set_state *)

(** A state object of the host: its state and its attributes. *)
Record StateObj : Type := {
  so_state : value;
  so_attributes : list (string * value)
}.

(** The arguments of a call of [hass.states.async_set]. *)
Record async_set_call : Type := {
  call_entity_id : string;
  call_new_state : value;
  call_attributes : list (string * value);
  call_force_update : value
}.

(** [set_state]; [stateObj] is what [hass.states.get(entity_id)] gave.
    The result is the call of [async_set] the function makes, if any. *)
Definition set_state (stateObj : option StateObj) (entity_id : string)
    (val : value) (key : option string) (allow_create force_update : value)
  : option async_set_call :=
  match stateObj, is_True allow_create with
  | None, false => None
  | _, _ =>
      (* Copy existing attributes, to update selected item *)
      let stateAttrs :=
        match stateObj with
        | Some o => so_attributes o
        | None => []
        end in
      let '(stateAttrs, val) :=
        match key with
        | Some k => (dict_set String.eqb stateAttrs k val, VNone)
        | None => (stateAttrs, val)
        end in
      Some {| call_entity_id := entity_id;
              call_new_state := val;
              call_attributes := stateAttrs;
              call_force_update := force_update |}
  end.

(** ** Vocabulary of the statements *)

(** The value of a text of digits in a base, most significant first. *)
Fixpoint digits_val (base : Z) (s : string) (acc : Z) : Z :=
  match s with
  | EmptyString => acc
  | String c r => digits_val base r (acc * base + digit_value c)
  end.

Definition is_digit (base : Z) (c : ascii) : bool := digit_value c <? base.

(** Characters the parser of [int] gives no meaning of their own in a
    base: no blank, sign, underscore or prefix letter. *)
Definition inert (base : Z) (c : ascii) : bool :=
  negb (is_space c) && negb (c =? "+")%char && negb (c =? "-")%char
  && negb (c =? "_")%char && negb (is_prefix_letter base c).

Definition nonempty (s : string) : bool :=
  match s with
  | EmptyString => false
  | _ => true
  end.

Definition scan_to_end (base : Z) (s : string) (seen : bool) (acc : Z)
  : option Z :=
  match scan_digits base s false seen acc with
  | Some (n, rest) => if all_space rest then Some n else None
  | None => None
  end.

(** Whether a character occurs in a text. *)
Fixpoint has_char (c : ascii) (s : string) : bool :=
  match s with
  | EmptyString => false
  | String a r => (a =? c)%char || has_char c r
  end.

(** A computation that leaves [params] as it found it. *)
Definition keeps_params {A} (m : M A) : Prop :=
  forall s, st_params (fst (m s)) = st_params s.

(** The endpoint id is absent: [None] or the empty text. *)
Definition absent (v : value) : bool := is_None v || py_eq_empty_str v.

(** [get_cluster_from_params] after its first statement, the one that
    fills in the endpoint id. *)
Definition resolve_cluster {C} (dev : Device C) : M C :=
  ep <~ params_get p.EP_ID ;;
  present <~ lift (py_in ep (endpoints dev)) ;;
  if negb present then
    raise (Exception (Msg_endpoint_not_found ep (ieee dev)))
  else
    cluster_id <~ params_get p.CLUSTER_ID ;;
    if negb (isinstance_int cluster_id) then
      raise (Exception (Msg_cluster_not_numeric cluster_id))
    else
      ep <~ params_get p.EP_ID ;;
      e <~ lift (py_getitem (endpoints dev) ep) ;;
      present <~ lift (py_in cluster_id (in_clusters e)) ;;
      if negb present then
        ep <~ params_get p.EP_ID ;;
        let msg := Msg_incluster_not_found cluster_id (ieee dev) ep in
        ed <~ lift (enddev dev) ;;
        ep <~ params_get p.EP_ID ;;
        e' <~ lift (py_getitem (points ed) ep) ;;
        out <~ lift (py_in cluster_id (out_clusters e')) ;;
        if out then
          let msg := Msg_using_outcluster msg in
          _ <~ warnings_append msg ;;
          ep <~ params_get p.EP_ID ;;
          e'' <~ lift (py_getitem (endpoints dev) ep) ;;
          lift (py_getitem (out_clusters e'') cluster_id)
        else
          raise (Exception msg)
      else
        ep <~ params_get p.EP_ID ;;
        e <~ lift (py_getitem (endpoints dev) ep) ;;
        lift (py_getitem (in_clusters e) cluster_id).

(** The datatype codes [attr_encode] has a branch of its own for. *)
Definition dedicated_code (c : Z) : bool :=
  (c =? 0x10) || between 0x20 c 0x2F || (c =? 0x41) || (c =? 0x42)
  || (c =? 0xFF).

(** The integer class behind each integer datatype code. *)
Definition int_code (c : Z) : option int_type :=
  if c =? 0x20 then Some uint8_t
  else if c =? 0x21 then Some uint16_t
  else if c =? 0x22 then Some uint24_t
  else if c =? 0x23 then Some uint32_t
  else if c =? 0x24 then Some uint32_t
  else if c =? 0x25 then Some uint48_t
  else if c =? 0x26 then Some uint56_t
  else if c =? 0x27 then Some uint64_t
  else if c =? 0x28 then Some int8s
  else if c =? 0x29 then Some int16s
  else if c =? 0x2A then Some int24s
  else if c =? 0x2B then Some int32s
  else if c =? 0x2C then Some int32s
  else if c =? 0x2D then Some int48s
  else if c =? 0x2E then Some int56s
  else if c =? 0x2F then Some int64s
  else None.




(** The bytes of a list of integers, each taken as one byte. *)
Definition bytes_of (l : list Z) : list byte :=
  map (fun n => match Byte.of_N (Z.to_N n) with
                | Some b => b
                | None => zero_byte
                end) l.

Definition all_small (l : list Z) : bool :=
  forallb (fun n => (0 <=? n) && (n <? 256)) l.

(** A registry and constructors to evaluate [attr_encode] with: code
    0x30 alone is mapped, and instances are the values they are built
    from. *)
Definition sample_Bool (v : value) : result bool :=
  n <- py_int_of v ;; Ok (negb (n =? 0)).

Definition sample_construct (_ : unit) (x : value + value) : result value :=
  match x with
  | inl v => Ok v
  | inr d => Ok d
  end.

Definition sample_DATA_TYPES : list (Z * unit) := [(0x30, tt)].

Definition sample_can_allocate (n : Z) : bool := n <=? 65536.

Definition sample_encode (attr_val_in attr_type : value) :=
  attr_encode sample_can_allocate sample_Bool sample_construct
    sample_DATA_TYPES attr_val_in attr_type.

(** The documented default of each field of the parameter set. *)
Definition documented_default (k : p.key) : value :=
  match k with
  | p.DIR => VInt 0
  | p.TRIES => VInt 1
  | p.EXPECT_REPLY => VBool true
  | p.ARGS => VList []
  | p.ALLOW_CREATE => VBool false
  | p.FAIL_EXCEPTION => VBool false
  | p.READ_BEFORE_WRITE => VBool true
  | p.READ_AFTER_WRITE => VBool true
  | p.WRITE_IF_EQUAL => VBool false
  | _ => VNone
  end.

(** The entry of the extracted parameters under a name, when
    [extractParams] returns. *)
Definition extracted (rawParams : raw_params) (k : p.key) : option value :=
  match extractParams rawParams with
  | Ok params => dict_get p.eqb params k
  | Raise _ => None
  end.

(** The endpoints other than 0 that list a cluster among their input
    clusters, in the order of the device's table. *)
Fixpoint input_matches {C} (cid : Z) (items : list (Z * Endpoint C))
  : list Z :=
  match items with
  | [] => []
  | (k, e) :: rest =>
      if negb (k =? 0) && dict_mem Z.eqb (in_clusters e) cid
      then k :: input_matches cid rest
      else input_matches cid rest
  end.

(** The raw field each entry of the parameters is read from. *)
Definition user_key (k : p.key) : P.key :=
  match k with
  | p.CMD_ID => P.CMD
  | p.EP_ID => P.ENDPOINT
  | p.CLUSTER_ID => P.CLUSTER
  | p.ATTR_ID => P.ATTRIBUTE
  | p.ATTR_TYPE => P.ATTR_TYPE
  | p.ATTR_VAL => P.ATTR_VAL
  | p.CODE => P.CODE
  | p.MIN_INTERVAL => P.MIN_INTRVL
  | p.MAX_INTERVAL => P.MAX_INTRVL
  | p.REPORTABLE_CHANGE => P.REPTBLE_CHG
  | p.DIR => P.DIR
  | p.MANF => P.MANF
  | p.TRIES => P.TRIES
  | p.EXPECT_REPLY => P.EXPECT_REPLY
  | p.ARGS => P.ARGS
  | p.STATE_ID => P.STATE_ID
  | p.STATE_ATTR => P.STATE_ATTR
  | p.ALLOW_CREATE => P.ALLOW_CREATE
  | p.EVT_SUCCESS => P.EVENT_SUCCESS
  | p.EVT_FAIL => P.EVENT_FAIL
  | p.EVT_DONE => P.EVENT_DONE
  | p.FAIL_EXCEPTION => P.FAIL_EXCEPTION
  | p.READ_BEFORE_WRITE => P.READ_BEFORE_WRITE
  | p.READ_AFTER_WRITE => P.READ_AFTER_WRITE
  | p.WRITE_IF_EQUAL => P.WRITE_IF_EQUAL
  | p.CSV_FILE => P.OUTCSV
  | p.CSV_LABEL => P.CSVLABEL
  end.

(** An empty text or a zero for the manufacturer becomes the empty byte
    string. *)
Definition manf_value (w : value) : value :=
  if py_eq_empty_str w || py_eq_int w 0 then VBytes [] else w.

(** What [extractParams] stores for a raw value of each field. *)
Definition converter (k : p.key) (v : value) : result value :=
  match k with
  | p.EXPECT_REPLY | p.FAIL_EXCEPTION => is_zero v
  | p.ARGS => convert_args v
  | p.STATE_ID | p.STATE_ATTR | p.EVT_SUCCESS | p.EVT_FAIL | p.EVT_DONE
  | p.CSV_FILE | p.CSV_LABEL => Ok v
  | p.READ_BEFORE_WRITE | p.READ_AFTER_WRITE | p.WRITE_IF_EQUAL => str2bool v
  | p.ALLOW_CREATE => allow_create v
  | p.MANF => w <- str2int v ;; Ok (manf_value w)
  | _ => str2int v
  end.

(** Letters and digits of ASCII. *)
Definition alnum (c : ascii) : bool := digit_value c <? 36.

(** No blank and no underscore. *)
Definition solid (c : ascii) : bool :=
  negb (is_space c) && negb (c =? "_")%char.

(** * Properties *)

(** ** Characters *)

Ltac each_char c :=
  destruct c as [[] [] [] [] [] [] [] []]; try reflexivity; try discriminate.

Lemma inert_parts base c :
  inert base c = true ->
  is_space c = false /\ (c =? "+")%char = false /\ (c =? "-")%char = false
  /\ (c =? "_")%char = false /\ is_prefix_letter base c = false.
Proof.
  unfold inert. rewrite !andb_true_iff, !negb_true_iff. tauto.
Qed.

Lemma scan_to_end_inert base s :
  all_chars (inert base) s = true ->
  forall seen acc,
    scan_to_end base s seen acc =
    if all_chars (is_digit base) s
    then (if seen || nonempty s then Some (digits_val base s acc) else None)
    else None.
Proof.
  unfold scan_to_end.
  induction s as [|c r IH]; intros Hall seen acc.
  - simpl. destruct seen; reflexivity.
  - simpl in Hall. apply andb_true_iff in Hall. destruct Hall as [Hc Hr].
    destruct (inert_parts _ _ Hc) as (Hsp & _ & _ & Hus & _).
    cbn [scan_digits all_chars digits_val nonempty].
    rewrite Hus. unfold is_digit at 1.
    destruct (digit_value c <? base) eqn:Hd.
    + cbn [andb]. rewrite (IH Hr true). rewrite orb_true_r.
      cbn [orb]. reflexivity.
    + cbn [andb]. destruct seen; [|reflexivity].
      unfold all_space. cbn [lstrip]. rewrite Hsp. reflexivity.
Qed.

Lemma parse_int_inert base s :
  nonempty s = true ->
  all_chars (inert base) s = true ->
  parse_int base s =
  if all_chars (is_digit base) s
  then (if digits_allowed base s then Some (digits_val base s 0) else None)
  else None.
Proof.
  intros Hne Hall. destruct s as [|c r]; [discriminate|].
  pose proof Hall as Hall'.
  simpl in Hall. apply andb_true_iff in Hall. destruct Hall as [Hc Hr].
  destruct (inert_parts _ _ Hc) as (Hsp & Hpl & Hmi & Hus & _).
  unfold parse_int. cbn [lstrip]. rewrite Hsp.
  unfold strip_sign. rewrite Hpl, Hmi.
  assert (Hpre : strip_prefix base (String c r) = String c r).
  { destruct r as [|c2 r2]; [reflexivity|].
    simpl in Hr. apply andb_true_iff in Hr. destruct Hr as [Hc2 _].
    destruct (inert_parts _ _ Hc2) as (_ & _ & _ & _ & Hp2).
    unfold strip_prefix. rewrite Hp2, andb_false_r. reflexivity. }
  rewrite Hpre.
  assert (Hm : forall (A : Type) (x y : A),
             match String c r with String "_" _ => x | _ => y end = y).
  { intros A x y. each_char c. }
  rewrite Hm.
  pose proof (scan_to_end_inert base (String c r) Hall' false 0) as Hs.
  unfold scan_to_end in Hs. cbn [orb nonempty] in Hs.
  destruct (scan_digits base (String c r) false false 0) as [[n rest]|].
  - destruct (all_space rest);
      destruct (all_chars (is_digit base) (String c r));
      first [discriminate Hs | inversion Hs; reflexivity | reflexivity].
  - destruct (all_chars (is_digit base) (String c r));
      [discriminate Hs|reflexivity].
Qed.

Lemma numeric_to_ascii_inert base c :
  isnumeric_char c = true -> inert base (to_ascii_char c) = true.
Proof.
  intros H. each_char c;
    unfold inert, is_prefix_letter; cbn; rewrite !andb_false_r; reflexivity.
Qed.

Lemma numeric_to_ascii_digit c :
  isnumeric_char c = true -> digit_value (to_ascii_char c) = digit_value c.
Proof. intros H. each_char c. Qed.

Lemma numeric_lower c : isnumeric_char c = true -> lower_char c = c.
Proof. intros H. each_char c. Qed.

Lemma to_ascii_numeric base s :
  all_chars isnumeric_char s = true ->
  all_chars (inert base) (to_ascii s) = true
  /\ all_chars (is_digit base) (to_ascii s) = all_chars (is_digit base) s
  /\ forall acc, digits_val base (to_ascii s) acc = digits_val base s acc.
Proof.
  induction s as [|c r IH]; intros H.
  - repeat split.
  - simpl in H. apply andb_true_iff in H. destruct H as [Hc Hr].
    destruct (IH Hr) as (I1 & I2 & I3).
    cbn [to_ascii all_chars digits_val]. unfold is_digit at 1 3.
    rewrite (numeric_to_ascii_inert base c Hc), I1, I2,
      (numeric_to_ascii_digit c Hc).
    repeat split. intros acc. apply I3.
Qed.

Lemma numeric_to_ascii_underscore c :
  isnumeric_char c = true ->
  (to_ascii_char c =? "_")%char = false /\ (c =? "_")%char = false.
Proof. intros H. each_char c; split; reflexivity. Qed.

Lemma to_ascii_numeric_count base s :
  all_chars isnumeric_char s = true ->
  count_digits base (to_ascii s) = count_digits base s.
Proof.
  induction s as [|c r IH]; intros H; [reflexivity|].
  simpl in H. apply andb_true_iff in H. destruct H as [Hc Hr].
  destruct (numeric_to_ascii_underscore c Hc) as [U1 U2].
  cbn [to_ascii count_digits].
  rewrite U1, U2, (numeric_to_ascii_digit c Hc), (IH Hr). reflexivity.
Qed.

(** On an all-numeric text [int] succeeds exactly when every character
    is a digit of the base, and then gives the value of the digits. *)
Lemma py_int_numeric base s :
  isnumeric s = true ->
  py_int base s =
  if all_chars (is_digit base) s
  then (if digits_allowed base s
        then Ok (VInt (digits_val base s 0)) else Raise ValueError)
  else Raise ValueError.
Proof.
  intros H. unfold py_int.
  assert (Hn : all_chars isnumeric_char s = true /\ nonempty s = true).
  { destruct s; [discriminate|]. split; [exact H|reflexivity]. }
  destruct Hn as [Hall Hne].
  destruct (to_ascii_numeric base s Hall) as (I1 & I2 & I3).
  rewrite parse_int_inert; [|destruct s; [discriminate|reflexivity]|exact I1].
  unfold digits_allowed. rewrite I2, I3, (to_ascii_numeric_count base s Hall).
  destruct (all_chars (is_digit base) s); [|reflexivity].
  destruct (is_binary_base base || (count_digits base s <=? int_max_str_digits));
    reflexivity.
Qed.

Lemma hex_digit_plain c :
  is_digit 16 c = true -> to_ascii_char c = c /\ inert 16 c = true.
Proof. intros H. each_char c; split; reflexivity. Qed.

Lemma to_ascii_hex s :
  all_chars (is_digit 16) s = true ->
  to_ascii s = s /\ all_chars (inert 16) s = true.
Proof.
  induction s as [|c r IH]; intros H; [split; reflexivity|].
  simpl in H. apply andb_true_iff in H. destruct H as [Hc Hr].
  destruct (hex_digit_plain c Hc) as [E1 E2]. destruct (IH Hr) as [E3 E4].
  cbn [to_ascii all_chars]. rewrite E1, E2, E3, E4. split; reflexivity.
Qed.

(** A prefix 0x or 0X followed by hexadecimal digits has the value of
    the digits. *)
Lemma py_int_hex_prefixed x h :
  x = "x"%char \/ x = "X"%char ->
  nonempty h = true ->
  all_chars (is_digit 16) h = true ->
  py_int 16 (String "0" (String x h)) = Ok (VInt (digits_val 16 h 0)).
Proof.
  intros Hx Hne Hh. destruct (to_ascii_hex h Hh) as [E1 E2].
  unfold py_int. cbn [to_ascii]. rewrite E1.
  assert (Ex : to_ascii_char x = x) by (destruct Hx; subst; reflexivity).
  rewrite Ex. change (to_ascii_char "0") with "0"%char.
  assert (D : forall t, digits_allowed 16 t = true) by reflexivity.
  pose proof (parse_int_inert 16 h Hne E2) as Hp. rewrite Hh, D in Hp.
  destruct h as [|c r]; [discriminate|].
  simpl in E2. apply andb_true_iff in E2. destruct E2 as [Hc Hr].
  destruct (inert_parts _ _ Hc) as (Hsp & Hpl & Hmi & Hus & _).
  unfold parse_int in *. cbn [lstrip] in *. rewrite Hsp in Hp.
  change (is_space "0") with false. cbv iota.
  unfold strip_sign in *. rewrite Hpl, Hmi in Hp.
  change ("0" =? "+")%char with false. change ("0" =? "-")%char with false.
  cbv iota.
  assert (Hs : strip_prefix 16 (String "0" (String x (String c r)))
               = String c r).
  { unfold strip_prefix. rewrite Hus.
    destruct Hx; subst; reflexivity. }
  rewrite Hs.
  assert (Hs' : strip_prefix 16 (String c r) = String c r).
  { destruct r as [|c2 r2]; [reflexivity|].
    simpl in Hr. apply andb_true_iff in Hr. destruct Hr as [Hc2 _].
    destruct (inert_parts _ _ Hc2) as (_ & _ & _ & _ & Hp2).
    unfold strip_prefix. rewrite Hp2, andb_false_r. reflexivity. }
  rewrite Hs' in Hp.
  destruct (scan_digits 16 (String c r) false false 0) as [[n rest]|];
    [|each_char c].
  destruct (all_space rest); [|each_char c].
  assert (n = digits_val 16 (String c r) 0)
    by (each_char c; rewrite D in Hp; congruence).
  subst n. each_char c; rewrite D; reflexivity.
Qed.

(** ** str2int *)

Lemma not_keyword c r :
  lower_char c <> "f"%char -> lower_char c <> "t"%char ->
  (lower (String c r) =? "false")%string = false
  /\ (lower (String c r) =? "true")%string = false.
Proof.
  intros Hf Ht. split.
  - destruct (String.eqb_spec (lower (String c r)) "false") as [E|]; auto.
    inversion E. contradiction.
  - destruct (String.eqb_spec (lower (String c r)) "true") as [E|]; auto.
    inversion E. contradiction.
Qed.

Lemma numeric_neq c d :
  isnumeric_char c = true -> isnumeric_char d = false -> (d =? c)%char = false.
Proof.
  intros Hc Hd. destruct (Ascii.eqb_spec d c); [congruence|reflexivity].
Qed.

Lemma numeric_no_keyword s :
  isnumeric s = true ->
  (lower s =? "false")%string = false /\ (lower s =? "true")%string = false.
Proof.
  intros H. destruct s as [|c r]; [discriminate|].
  simpl in H. apply andb_true_iff in H. destruct H as [Hc _].
  apply not_keyword; rewrite (numeric_lower c Hc); intros E; subst c;
    discriminate.
Qed.

Lemma numeric_no_hex_prefix s :
  isnumeric s = true -> startswith "0x" s || startswith "0X" s = false.
Proof.
  intros H. destruct s as [|c [|c1 r]].
  - discriminate.
  - cbn. rewrite andb_false_r. reflexivity.
  - simpl in H. apply andb_true_iff in H. destruct H as [_ H].
    apply andb_true_iff in H. destruct H as [Hc1 _].
    cbn [startswith].
    rewrite (numeric_neq c1 "x" Hc1 eq_refl), (numeric_neq c1 "X" Hc1 eq_refl).
    rewrite !andb_false_l, !andb_false_r. reflexivity.
Qed.

Lemma numeric_no_b_prefix s :
  isnumeric s = true -> startswith "b" s = false.
Proof.
  intros H. destruct s as [|c r]; [discriminate|].
  simpl in H. apply andb_true_iff in H. destruct H as [Hc _].
  cbn [startswith]. rewrite (numeric_neq c "b" Hc eq_refl). reflexivity.
Qed.

Lemma startswith_char c s :
  startswith (String c EmptyString) s = true -> exists r, s = String c r.
Proof.
  destruct s as [|c' r]; [discriminate|]. cbn [startswith].
  rewrite andb_true_r. intros H. apply Ascii.eqb_eq in H. subst. eauto.
Qed.

Lemma str2int_hex_rule s :
  startswith "0x" s || startswith "0X" s = true ->
  str2int (VStr s) = py_int 16 s.
Proof.
  intros H. assert (H0 : startswith "0" s = true).
  { destruct s as [|c [|c1 r]]; cbn [startswith] in *;
      [discriminate | rewrite !andb_false_r in H; discriminate | ].
    rewrite andb_true_r.
    destruct ("0" =? c)%char; [reflexivity|discriminate]. }
  destruct (startswith_char _ _ H0) as [r ->].
  destruct (not_keyword "0" r) as [K1 K2]; try discriminate.
  unfold str2int. rewrite K1, K2, H. reflexivity.
Qed.

Lemma str2int_octal_rule s :
  isnumeric s = true -> startswith "0" s = true ->
  str2int (VStr s) = py_int 8 s.
Proof.
  intros Hn H0. destruct (numeric_no_keyword s Hn) as [K1 K2].
  unfold str2int. rewrite K1, K2, (numeric_no_hex_prefix s Hn), H0, Hn.
  reflexivity.
Qed.

Lemma str2int_binary_rule s :
  startswith "b" s = true -> isnumeric (slice1 s) = true ->
  str2int (VStr s) = py_int 2 (slice1 s).
Proof.
  intros Hb Hn. destruct (startswith_char _ _ Hb) as [r ->].
  destruct (not_keyword "b" r) as [K1 K2]; try discriminate.
  unfold str2int. rewrite K1, K2. cbn [slice1] in *.
  change (startswith "0x" (String "b" r)) with false.
  change (startswith "0X" (String "b" r)) with false.
  change (startswith "0" (String "b" r)) with false.
  rewrite Hb, Hn. reflexivity.
Qed.

Lemma str2int_decimal_rule s :
  isnumeric s = true -> startswith "0" s = false ->
  str2int (VStr s) = py_int 10 s.
Proof.
  intros Hn H0. destruct (numeric_no_keyword s Hn) as [K1 K2].
  unfold str2int.
  rewrite K1, K2, (numeric_no_hex_prefix s Hn), H0,
    (numeric_no_b_prefix s Hn), Hn.
  reflexivity.
Qed.

Lemma str2int_other_rule s :
  lower s <> "false" -> lower s <> "true" ->
  startswith "0x" s || startswith "0X" s = false ->
  isnumeric s = false ->
  startswith "b" s && isnumeric (slice1 s) = false ->
  str2int (VStr s) = Ok (VStr s).
Proof.
  intros K1 K2 Hx Hn Hb.
  apply String.eqb_neq in K1. apply String.eqb_neq in K2.
  unfold str2int. rewrite K1, K2, Hx, Hn, Hb, andb_false_r. reflexivity.
Qed.

Lemma digit10_numeric c : is_digit 10 c = true -> isnumeric_char c = true.
Proof. intros H. each_char c. Qed.

Lemma digit_le base base' c :
  base <= base' -> is_digit base c = true -> is_digit base' c = true.
Proof. unfold is_digit. rewrite !Z.ltb_lt. lia. Qed.

Lemma digits_numeric base s :
  base <= 10 ->
  nonempty s = true -> all_chars (is_digit base) s = true ->
  isnumeric s = true.
Proof.
  intros Hb Hne H. destruct s as [|c r]; [discriminate|].
  unfold isnumeric. clear Hne.
  induction (String c r) as [|a t IH]; [reflexivity|].
  simpl in *. apply andb_true_iff in H. destruct H as [Ha Ht].
  rewrite (digit10_numeric a (digit_le base 10 a Hb Ha)), (IH Ht).
  reflexivity.
Qed.

Lemma has_8_9_not_octal s :
  has_char "8" s || has_char "9" s = true ->
  all_chars (is_digit 8) s = false.
Proof.
  induction s as [|a r IH]; [discriminate|].
  cbn [has_char all_chars]. intros H.
  destruct (is_digit 8 a) eqn:Hd; [|reflexivity].
  assert (Ha : (a =? "8")%char = false /\ (a =? "9")%char = false).
  { clear - Hd. each_char a; split; reflexivity. }
  destruct Ha as [H8 H9]. rewrite H8, H9 in H. cbn [orb andb] in *.
  apply IH, H.
Qed.

Lemma count_digits_all base s :
  base <= 37 -> all_chars (is_digit base) s = true ->
  count_digits base s = Z.of_nat (String.length s).
Proof.
  intros Hb. induction s as [|c r IH]; intros H; [reflexivity|].
  cbn [all_chars] in H. apply andb_true_iff in H. destruct H as [Hc Hr].
  cbn [count_digits String.length]. unfold is_digit in Hc. rewrite Hc.
  assert (U : (c =? "_")%char = false).
  { destruct (Ascii.eqb_spec c "_") as [->|]; [|reflexivity].
    apply Z.ltb_lt in Hc. change (digit_value "_") with 37 in Hc. lia. }
  rewrite U, (IH Hr). lia.
Qed.

Lemma decimal_digits_allowed s :
  all_chars (is_digit 10) s = true ->
  digits_allowed 10 s = (Z.of_nat (String.length s) <=? int_max_str_digits).
Proof.
  intros H. unfold digits_allowed.
  rewrite (count_digits_all 10 s) by (try lia; exact H). reflexivity.
Qed.

(** C4: the base-sniffing rules of [str2int].  A value that is not a text
    is returned unchanged; a text that lower-cases to false or true gives
    0 or 1; a text starting with 0x or 0X is parsed by [int(s, 16)], and
    hexadecimal digits after the prefix give their value; an all-numeric
    text starting with 0 is parsed by [int(s, 8)], and octal digits give
    their value; a text starting with b whose remainder is all-numeric is
    parsed by [int(s[1:], 2)], and binary digits give their value; any
    other all-numeric text is parsed by [int(s)], and decimal digits, up
    to the 4300 the interpreter accepts, give their value (more of them
    raise ValueError); every other text is returned unchanged.  The
    examples of the specification evaluate as it says. *)
Theorem str2int_rules :
  (forall v, (forall s, v <> VStr s) -> str2int v = Ok v)
  /\ (forall s, lower s = "false" -> str2int (VStr s) = Ok (VInt 0))
  /\ (forall s, lower s = "true" -> str2int (VStr s) = Ok (VInt 1))
  /\ (forall s, startswith "0x" s || startswith "0X" s = true ->
        str2int (VStr s) = py_int 16 s)
  /\ (forall x h, x = "x"%char \/ x = "X"%char ->
        nonempty h = true -> all_chars (is_digit 16) h = true ->
        str2int (VStr (String "0" (String x h)))
        = Ok (VInt (digits_val 16 h 0)))
  /\ (forall s, isnumeric s = true -> startswith "0" s = true ->
        str2int (VStr s) = py_int 8 s)
  /\ (forall s, startswith "0" s = true -> all_chars (is_digit 8) s = true ->
        str2int (VStr s) = Ok (VInt (digits_val 8 s 0)))
  /\ (forall s, startswith "b" s = true -> isnumeric (slice1 s) = true ->
        str2int (VStr s) = py_int 2 (slice1 s))
  /\ (forall r, nonempty r = true -> all_chars (is_digit 2) r = true ->
        str2int (VStr (String "b" r)) = Ok (VInt (digits_val 2 r 0)))
  /\ (forall s, isnumeric s = true -> startswith "0" s = false ->
        str2int (VStr s) = py_int 10 s)
  /\ (forall s, nonempty s = true -> all_chars (is_digit 10) s = true ->
        startswith "0" s = false ->
        Z.of_nat (String.length s) <= int_max_str_digits ->
        str2int (VStr s) = Ok (VInt (digits_val 10 s 0)))
  /\ (forall s, all_chars (is_digit 10) s = true ->
        startswith "0" s = false ->
        int_max_str_digits < Z.of_nat (String.length s) ->
        str2int (VStr s) = Raise ValueError)
  /\ (forall s, lower s <> "false" -> lower s <> "true" ->
        startswith "0x" s || startswith "0X" s = false ->
        isnumeric s = false ->
        startswith "b" s && isnumeric (slice1 s) = false ->
        str2int (VStr s) = Ok (VStr s))
  /\ str2int (VStr "0x1A") = Ok (VInt 26)
  /\ str2int (VStr "010") = Ok (VInt 8)
  /\ str2int (VStr "b101") = Ok (VInt 5)
  /\ str2int (VStr "true") = Ok (VInt 1)
  /\ str2int (VStr "FALSE") = Ok (VInt 0).
Proof.
  repeat apply conj; try reflexivity.
  - intros v Hv. destruct v; try reflexivity. exfalso. eapply Hv; reflexivity.
  - intros s H. unfold str2int. rewrite H. reflexivity.
  - intros s H. unfold str2int. rewrite H. reflexivity.
  - exact str2int_hex_rule.
  - intros x h Hx Hne Hh. rewrite str2int_hex_rule.
    + apply py_int_hex_prefixed; assumption.
    + destruct Hx; subst; reflexivity.
  - exact str2int_octal_rule.
  - intros s H0 Hd. assert (Hne : nonempty s = true).
    { destruct s; [discriminate|reflexivity]. }
    assert (Hn : isnumeric s = true) by (apply (digits_numeric 8); auto; lia).
    rewrite (str2int_octal_rule s Hn H0), (py_int_numeric 8 s Hn), Hd.
    reflexivity.
  - exact str2int_binary_rule.
  - intros r Hne Hd.
    assert (Hn : isnumeric r = true) by (apply (digits_numeric 2); auto; lia).
    rewrite str2int_binary_rule; [|reflexivity|exact Hn].
    cbn [slice1]. rewrite (py_int_numeric 2 r Hn), Hd. reflexivity.
  - exact str2int_decimal_rule.
  - intros s Hne Hd H0 Hlen.
    assert (Hn : isnumeric s = true) by (apply (digits_numeric 10); auto; lia).
    rewrite (str2int_decimal_rule s Hn H0), (py_int_numeric 10 s Hn), Hd,
      (decimal_digits_allowed s Hd), (proj2 (Z.leb_le _ _) Hlen).
    reflexivity.
  - intros s Hd H0 Hlen.
    assert (Hne : nonempty s = true).
    { destruct s; [cbn in Hlen; unfold int_max_str_digits in Hlen; lia
                  |reflexivity]. }
    assert (Hn : isnumeric s = true) by (apply (digits_numeric 10); auto; lia).
    rewrite (str2int_decimal_rule s Hn H0), (py_int_numeric 10 s Hn), Hd,
      (decimal_digits_allowed s Hd), (proj2 (Z.leb_gt _ _) Hlen).
    reflexivity.
  - exact str2int_other_rule.
Qed.

Lemma str2int_rules_witness :
  str2int (VInt 7) = Ok (VInt 7)
  /\ str2int (VStr "False") = Ok (VInt 0)
  /\ str2int (VStr "0XfF") = Ok (VInt 255)
  /\ str2int (VStr "0017") = Ok (VInt 15)
  /\ str2int (VStr "b110") = Ok (VInt 6)
  /\ str2int (VStr "1234") = Ok (VInt 1234)
  /\ str2int (VStr "sensor.kitchen") = Ok (VStr "sensor.kitchen").
Proof.
  destruct str2int_rules
    as (R1 & R2 & _ & _ & R5 & _ & R7 & _ & R9 & _ & R11 & _ & R12 & _).
  repeat apply conj.
  - apply R1. intros s. discriminate.
  - apply R2. reflexivity.
  - apply (R5 "X"%char "fF"); [right|..]; reflexivity.
  - apply (R7 "0017"); reflexivity.
  - apply (R9 "110"); reflexivity.
  - apply (R11 "1234"); first [reflexivity | cbv; discriminate].
  - apply R12; try reflexivity; discriminate.
Defined.

(** C7: an all-numeric text that starts with 0 and contains the digit 8
    or 9 makes [str2int] raise ValueError from the base-8 parse: neither
    the decimal value nor the text itself is returned.  The text "0" gives
    the integer 0. *)
Theorem str2int_leading_zero_8_9 :
  (forall s, isnumeric s = true -> startswith "0" s = true ->
     has_char "8" s || has_char "9" s = true ->
     str2int (VStr s) = Raise ValueError)
  /\ str2int (VStr "0") = Ok (VInt 0).
Proof.
  split; [|reflexivity].
  intros s Hn H0 H89.
  rewrite (str2int_octal_rule s Hn H0), (py_int_numeric 8 s Hn),
    (has_8_9_not_octal s H89).
  reflexivity.
Qed.

Lemma str2int_leading_zero_8_9_witness :
  str2int (VStr "08") = Raise ValueError
  /\ str2int (VStr "0192") = Raise ValueError.
Proof.
  split; apply (proj1 str2int_leading_zero_8_9); reflexivity.
Defined.

(** ** Dictionaries *)

Lemma p_eqb_eq a b : p.eqb a b = true <-> a = b.
Proof. unfold p.eqb. destruct (p.eq_dec a b); split; congruence. Qed.

Lemma p_eqb_neq a b : a <> b -> p.eqb a b = false.
Proof. unfold p.eqb. destruct (p.eq_dec a b); congruence. Qed.

Lemma dict_get_set_other (d : params_dict) k k' v :
  k <> k' -> dict_get p.eqb (dict_set p.eqb d k' v) k = dict_get p.eqb d k.
Proof.
  intros Hk. induction d as [|[k0 v0] r IH]; cbn [dict_set dict_get].
  - rewrite (p_eqb_neq _ _ Hk). reflexivity.
  - destruct (p.eqb k' k0) eqn:E; cbn [dict_get].
    + apply p_eqb_eq in E. subst k0. rewrite (p_eqb_neq _ _ Hk). reflexivity.
    + destruct (p.eqb k k0); [reflexivity|exact IH].
Qed.

Lemma dict_get_set_same (d : params_dict) k v :
  dict_get p.eqb (dict_set p.eqb d k v) k = Some v.
Proof.
  assert (R : p.eqb k k = true) by (apply p_eqb_eq; reflexivity).
  induction d as [|[k0 v0] r IH]; cbn [dict_set dict_get].
  - rewrite R. reflexivity.
  - destruct (p.eqb k k0) eqn:E; cbn [dict_get]; rewrite E; auto.
Qed.

(** ** find_endpoint *)

Lemma count_endpoints_no_hit {C} (side : Endpoint C -> list (Z * C)) cid items :
  (forall k e, In (k, e) items -> k <> 0 ->
     dict_mem Z.eqb (side e) cid = false) ->
  forall st, count_endpoints side (VInt cid) items st = Ok st.
Proof.
  induction items as [|[k e] r IH]; intros H st; [reflexivity|].
  cbn [count_endpoints].
  destruct (k =? 0) eqn:E.
  - apply IH. intros k' e' Hin. apply H. right. exact Hin.
  - unfold py_in. cbn [int_key bind].
    rewrite (H k e (or_introl eq_refl)) by (apply Z.eqb_neq; exact E).
    apply IH. intros k' e' Hin. apply H. right. exact Hin.
Qed.

(** C1: when no endpoint other than 0 lists the cluster among its input
    clusters, [find_endpoint] returns [None] whatever the output clusters
    are: its second loop tests [in_clusters] again. *)
Theorem find_endpoint_second_scan_in_clusters {C} (dev : Device C) (cid : Z) :
  (forall k e, In (k, e) (endpoints dev) -> k <> 0 ->
     dict_mem Z.eqb (in_clusters e) cid = false) ->
  find_endpoint dev (VInt cid) = Ok None.
Proof.
  intros H. unfold find_endpoint.
  rewrite (count_endpoints_no_hit in_clusters cid _ H). cbn [bind fst].
  change (0 =? 0) with true. cbv iota.
  rewrite (count_endpoints_no_hit in_clusters cid _ H). reflexivity.
Qed.

(** A device whose endpoint 1 has no input cluster and lists cluster 6 as
    an output cluster: a scan of the output side counts one endpoint,
    [find_endpoint] returns [None]. *)
Lemma find_endpoint_second_scan_witness :
  let dev := {| endpoints := [(1, {| in_clusters := [];
                                     out_clusters := [(6, tt)] |})];
                ieee := "00:11:22:33:44:55:66:77" |} in
  count_endpoints out_clusters (VInt 6) (endpoints dev) (0, None)
  = Ok (1, Some 1)
  /\ find_endpoint dev (VInt 6) = Ok None.
Proof.
  split; [reflexivity|].
  apply find_endpoint_second_scan_in_clusters.
  intros k e [E|[]] _. inversion E. reflexivity.
Defined.

(** ** get_cluster_from_params *)

(** C2: with an endpoint id that is on the device and an integer cluster
    id that is not among the endpoint's input clusters,
    [get_cluster_from_params] raises AttributeError (from [dev.enddev])
    and leaves [params] and [event_data] as they were: no cluster is
    returned and no warning is appended, whether or not the cluster is
    among the output clusters. *)
Theorem get_cluster_from_params_in_miss {C} (dev : Device C)
    (params : params_dict) (event_data : EventData) (ep cid : Z)
    (e : Endpoint C) :
  dict_get p.eqb params p.EP_ID = Some (VInt ep) ->
  dict_get p.eqb params p.CLUSTER_ID = Some (VInt cid) ->
  dict_get Z.eqb (endpoints dev) ep = Some e ->
  dict_mem Z.eqb (in_clusters e) cid = false ->
  get_cluster_from_params dev
    {| st_params := params; st_event_data := event_data |}
  = ({| st_params := params; st_event_data := event_data |},
     Raise AttributeError).
Proof.
  intros Hep Hcid He Hin.
  assert (Hin' : dict_get Z.eqb (in_clusters e) cid = None).
  { unfold dict_mem in Hin.
    destruct (dict_get Z.eqb (in_clusters e) cid); [discriminate|reflexivity]. }
  unfold get_cluster_from_params, bindM, params_get, lift, ret, raise,
    py_in, py_getitem, dict_mem, enddev.
  repeat (cbn [st_params st_event_data int_key bind is_None py_eq_empty_str
               orb negb isinstance_int];
          first [rewrite Hep | rewrite Hcid | rewrite He | rewrite Hin']).
  reflexivity.
Qed.

(** Endpoint 1 lacks cluster 0x0702 among its input clusters and has it
    among its output clusters. *)
Lemma get_cluster_from_params_in_miss_witness :
  let dev := {| endpoints := [(1, {| in_clusters := [];
                                     out_clusters := [(0x0702, tt)] |})];
                ieee := "00:11:22:33:44:55:66:77" |} in
  let params := dict_set p.eqb
                  (dict_set p.eqb initial_params p.EP_ID (VInt 1))
                  p.CLUSTER_ID (VInt 0x0702) in
  let s := {| st_params := params;
              st_event_data := {| warnings := None |} |} in
  get_cluster_from_params dev s = (s, Raise AttributeError).
Proof.
  cbv zeta.
  apply (get_cluster_from_params_in_miss _ _ _ 1 0x0702
           {| in_clusters := []; out_clusters := [(0x0702, tt)] |});
    reflexivity.
Defined.

Lemma get_cluster_from_params_split {C} (dev : Device C) :
  get_cluster_from_params dev =
  (ep <~ params_get p.EP_ID ;;
   _ <~ (if is_None ep || py_eq_empty_str ep then
           cid <~ params_get p.CLUSTER_ID ;;
           found <~ lift (find_endpoint dev cid) ;;
           params_set p.EP_ID (of_endpoint_id found)
         else ret tt) ;;
   resolve_cluster dev).
Proof. reflexivity. Qed.

Lemma keeps_params_ret {A} (a : A) : keeps_params (ret a).
Proof. intros s. reflexivity. Qed.

Lemma keeps_params_lift {A} (r : result A) : keeps_params (lift r).
Proof. intros s. reflexivity. Qed.

Lemma keeps_params_get k : keeps_params (params_get k).
Proof. intros s. reflexivity. Qed.

Lemma keeps_params_warn msg : keeps_params (warnings_append msg).
Proof. intros s. reflexivity. Qed.

Lemma keeps_params_bind {A B} (m : M A) (k : A -> M B) :
  keeps_params m -> (forall a, keeps_params (k a)) -> keeps_params (bindM m k).
Proof.
  intros Hm Hk s. unfold bindM. specialize (Hm s).
  destruct (m s) as [s' [a|e]]; cbn [fst] in *.
  - rewrite Hk. exact Hm.
  - exact Hm.
Qed.

Ltac keeps :=
  repeat first
    [ apply keeps_params_ret
    | apply keeps_params_get
    | apply keeps_params_warn
    | apply keeps_params_lift
    | apply keeps_params_bind; [|intros ?]
    | match goal with
      | |- keeps_params (if ?b then _ else _) => destruct b
      | |- keeps_params (raise _) => unfold raise
      | |- keeps_params (let x := _ in _) => cbv zeta
      end ].

Lemma resolve_cluster_keeps_params {C} (dev : Device C) :
  keeps_params (resolve_cluster dev).
Proof. unfold resolve_cluster. keeps. Qed.

(** [params] after a call, by cases on what the first statement did. *)
Lemma get_cluster_from_params_params {C} (dev : Device C) (s : state) :
  st_params (fst (get_cluster_from_params dev s)) =
  match dict_get p.eqb (st_params s) p.EP_ID with
  | Some v =>
      if absent v then
        match dict_get p.eqb (st_params s) p.CLUSTER_ID with
        | Some cid =>
            match find_endpoint dev cid with
            | Ok found =>
                dict_set p.eqb (st_params s) p.EP_ID (of_endpoint_id found)
            | Raise _ => st_params s
            end
        | None => st_params s
        end
      else st_params s
  | None => st_params s
  end.
Proof.
  rewrite get_cluster_from_params_split.
  unfold bindM at 1. unfold params_get at 1.
  destruct (dict_get p.eqb (st_params s) p.EP_ID) as [v|] eqn:Hep;
    [|reflexivity].
  unfold absent.
  destruct (is_None v || py_eq_empty_str v) eqn:Habs.
  - unfold bindM at 1 2. unfold params_get at 1.
    destruct (dict_get p.eqb (st_params s) p.CLUSTER_ID) as [cid|] eqn:Hcid;
      [|reflexivity].
    unfold bindM at 1. unfold lift at 1.
    destruct (find_endpoint dev cid) as [found|e] eqn:Hf; [|reflexivity].
    unfold params_set. rewrite resolve_cluster_keeps_params. reflexivity.
  - unfold bindM at 1. unfold ret. rewrite resolve_cluster_keeps_params.
    reflexivity.
Qed.

(** C10: [get_cluster_from_params] changes [params] at the endpoint id
    only, and only when the endpoint id was absent (None or the empty
    text), whether it returns a cluster or raises: every other entry
    reads as before; an endpoint id that is present, or a dictionary
    without that entry, leaves [params] as it was; and when [params]
    does change, the new endpoint id is what [find_endpoint] returned for
    the cluster id. *)
Theorem get_cluster_from_params_frame {C} (dev : Device C) (s : state) :
  let s' := fst (get_cluster_from_params dev s) in
  (forall k, k <> p.EP_ID ->
     dict_get p.eqb (st_params s') k = dict_get p.eqb (st_params s) k)
  /\ (forall v, dict_get p.eqb (st_params s) p.EP_ID = Some v ->
        absent v = false -> st_params s' = st_params s)
  /\ (dict_get p.eqb (st_params s) p.EP_ID = None ->
        st_params s' = st_params s)
  /\ (st_params s' = st_params s
      \/ exists v cid found,
           dict_get p.eqb (st_params s) p.EP_ID = Some v
           /\ absent v = true
           /\ dict_get p.eqb (st_params s) p.CLUSTER_ID = Some cid
           /\ find_endpoint dev cid = Ok found
           /\ st_params s'
              = dict_set p.eqb (st_params s) p.EP_ID (of_endpoint_id found)).
Proof.
  cbv zeta. rewrite get_cluster_from_params_params.
  destruct (dict_get p.eqb (st_params s) p.EP_ID) as [v|] eqn:Hep.
  2:{ split; [|split; [|split]];
        [reflexivity | discriminate | reflexivity | left; reflexivity]. }
  destruct (absent v) eqn:Habs.
  2:{ split; [|split; [|split]];
        [reflexivity | reflexivity | reflexivity | left; reflexivity]. }
  destruct (dict_get p.eqb (st_params s) p.CLUSTER_ID) as [cid|] eqn:Hcid.
  2:{ split; [|split; [|split]];
        [reflexivity | reflexivity | reflexivity | left; reflexivity]. }
  destruct (find_endpoint dev cid) as [found|e] eqn:Hf.
  2:{ split; [|split; [|split]];
        [reflexivity | reflexivity | reflexivity | left; reflexivity]. }
  split; [|split; [|split]].
  - intros k Hk. apply dict_get_set_other. exact Hk.
  - intros v' E. inversion E. subst. congruence.
  - discriminate.
  - right. exists v, cid, found. repeat split; auto.
Qed.

(** A call that fails (cluster 6 is on no endpoint): the endpoint id,
    absent before, is set to [None] again; the cluster id is as before. *)
Lemma get_cluster_from_params_frame_witness :
  let dev := {| endpoints := [(1, {| in_clusters := [(0, tt)];
                                     out_clusters := [] |})];
                ieee := "00:11:22:33:44:55:66:77" |} in
  let params := dict_set p.eqb initial_params p.CLUSTER_ID (VInt 6) in
  let s := {| st_params := params;
              st_event_data := {| warnings := None |} |} in
  dict_get p.eqb
    (st_params (fst (@get_cluster_from_params unit dev s))) p.CLUSTER_ID
  = Some (VInt 6).
Proof.
  cbv zeta.
  rewrite (proj1 (get_cluster_from_params_frame _ _)) by discriminate.
  reflexivity.
Defined.

(** ** attr_encode *)

Lemma bind_Ok {A B} (r : result A) (k : A -> result B) b :
  bind r k = Ok b -> exists a, r = Ok a /\ k a = Ok b.
Proof. destruct r as [a|e]; [eauto|discriminate]. Qed.

Ltac inv_bind :=
  repeat match goal with
         | H : bind _ _ = Ok _ |- _ =>
             apply bind_Ok in H; destruct H as (? & ? & H)
         | H : Ok _ = Ok _ |- _ => inversion H; clear H; subst
         | H : Raise _ = Ok _ |- _ => discriminate H
         | H : (if ?b then _ else _) = Ok _ |- _ => destruct b eqn:?
         end.

Section AttrEncodeProperties.
Context (can_allocate : Z -> bool).
Context {BoolT : Type} (t_Bool : value -> result BoolT).
Context {DataType DataT : Type}.
Context (construct : DataType -> value + DataT -> result DataT).
Context (DATA_TYPES : list (Z * DataType)).

(** Whenever [attr_encode] returns, it returns a typed value and no
    message: the branch that builds the message is never taken. *)
Lemma attr_encode_returns_object v ty o m c :
  attr_encode can_allocate t_Bool construct DATA_TYPES v ty = Ok (o, m, c) ->
  o <> None /\ m = None.
Proof.
  unfold attr_encode, encode_int. intros H.
  inv_bind; split; congruence.
Qed.

(** C3: a datatype code without a branch of its own that the registry
    does not map makes [attr_encode] raise KeyError, whatever the raw
    value: no result, and so no message, is returned. *)
Theorem attr_encode_unmapped_raises (v : value) (code : Z) :
  dedicated_code code = false ->
  dict_get Z.eqb DATA_TYPES code = None ->
  attr_encode can_allocate t_Bool construct DATA_TYPES v (VInt code) = Raise KeyError.
Proof.
  intros Hded Hreg. unfold attr_encode. cbn [py_eq_int is_None].
  repeat match goal with
         | |- context [code =? ?n] =>
             destruct (Z.eqb_spec code n) as [E|_];
             [rewrite E in Hded; cbv in Hded; discriminate Hded|]
         end.
  cbn [orb]. unfold py_getitem. cbn [int_key bind]. rewrite Hreg.
  reflexivity.
Qed.

(** C6: for a raw value that is a text and datatype code 0x41 or 0x42,
    [attr_encode] raises TypeError: [t.LVBytes] is applied to the text
    before the text is encoded. *)
Theorem attr_encode_octet_text_raises (s : string) (code : Z) :
  code = 0x41 \/ code = 0x42 ->
  attr_encode can_allocate t_Bool construct DATA_TYPES (VStr s) (VInt code)
  = Raise TypeError.
Proof. intros [E|E]; subst code; reflexivity. Qed.




End AttrEncodeProperties.

Lemma attr_encode_unmapped_raises_witness :
  sample_encode (VStr "1") (VInt 0x7E) = Raise KeyError.
Proof.
  apply attr_encode_unmapped_raises; reflexivity.
Defined.

Lemma attr_encode_octet_text_raises_witness :
  sample_encode (VStr "abc") (VInt 0x41) = Raise TypeError
  /\ sample_encode (VStr "abc") (VInt 0x42) = Raise TypeError.
Proof.
  split; apply attr_encode_octet_text_raises; [left|right]; reflexivity.
Defined.



(** *** Octet strings from lists of integers *)

Lemma byte_of_Z_small n :
  (0 <=? n) && (n <? 256) = true ->
  byte_of_Z n = Ok (match Byte.of_N (Z.to_N n) with
                    | Some b => b
                    | None => zero_byte
                    end).
Proof.
  intros H. unfold byte_of_Z. rewrite H.
  destruct (Byte.of_N (Z.to_N n)) as [b|] eqn:E; [reflexivity|].
  apply Byte.of_N_None_iff in E.
  apply andb_true_iff in H. destruct H as [H0 H1].
  apply Z.leb_le in H0. apply Z.ltb_lt in H1. lia.
Qed.

Lemma bytes_of_small l :
  all_small l = true ->
  mapM byte_of_Z l = Ok (bytes_of l)
  /\ mapM byte_of_value (map VInt l) = Ok (bytes_of l)
  /\ uint8_list (map VInt l) = Ok l.
Proof.
  unfold uint8_list.
  induction l as [|n r IH]; intros H; [repeat split|].
  cbn [all_small forallb] in H. apply andb_true_iff in H.
  destruct H as [Hn Hr]. destruct (IH Hr) as (I1 & I2 & I3).
  cbn [map mapM bytes_of byte_of_value]. rewrite I1, I2, I3.
  rewrite (byte_of_Z_small n Hn). cbn [bind].
  repeat split.
  unfold int_new. cbn [py_int_of bind].
  change (min_value uint8_t) with 0. change (max_value uint8_t) with 255.
  apply andb_true_iff in Hn. destruct Hn as [H0 H1].
  apply Z.ltb_lt in H1.
  assert (E : (n <=? 255) = true) by (apply Z.leb_le; lia).
  rewrite H0, E. reflexivity.
Qed.

Section AttrEncodeOctet.
Context (can_allocate : Z -> bool).
Context {BoolT : Type} (t_Bool : value -> result BoolT).
Context {DataType DataT : Type}.
Context (construct : DataType -> value + DataT -> result DataT).
Context (DATA_TYPES : list (Z * DataType)).

(** A list of integers between 0 and 255 is encoded as the bytes of
    its elements; [LVBytes_serialize] puts the length in front. *)
Lemma attr_encode_octet_list (l : list Z) (code : Z) :
  code = 0x41 \/ code = 0x42 ->
  all_small l = true ->
  attr_encode can_allocate t_Bool construct DATA_TYPES (VList (map VInt l)) (VInt code)
  = Ok (Some {| tv_type := VInt code; tv_value := P_LVBytes (bytes_of l) |},
        None, CV_LVBytes (bytes_of l)).
Proof.
  intros Hc Hl. destruct (bytes_of_small l Hl) as (I1 & I2 & I3).
  assert (E : attr_encode can_allocate t_Bool construct DATA_TYPES
                (VList (map VInt l)) (VInt code) =
              (r <- (compare_val <- mapM byte_of_value (map VInt l) ;;
                     attr_val_in <- (l' <- uint8_list (map VInt l) ;;
                                     Ok (VUint8List l')) ;;
                     b <- LVBytes can_allocate attr_val_in ;;
                     Ok (Some {| tv_type := VInt code;
                                 tv_value := P_LVBytes b |},
                         attr_val_in, CV_LVBytes compare_val)) ;;
               let '(attr_obj, attr_val_in, compare_val) := r in
               Ok (attr_obj,
                   match attr_obj with
                   | None =>
                       Some (Msg_attr_not_supported (VInt code) attr_val_in)
                   | Some _ => None
                   end, compare_val))).
  { destruct Hc; subst code; reflexivity. }
  rewrite E, I2, I3. cbn [bind LVBytes py_bytes]. rewrite I1. reflexivity.
Qed.
End AttrEncodeOctet.

Lemma LVBytes_serialize_prefix (b : list byte) :
  Z.of_nat (List.length b) < 255 ->
  exists n, byte_of_Z (Z.of_nat (List.length b)) = Ok n
            /\ LVBytes_serialize b = Ok (n :: b).
Proof.
  intros H. unfold LVBytes_serialize.
  destruct (255 <=? Z.of_nat (List.length b)) eqn:E;
    [apply Z.leb_le in E; lia|].
  rewrite byte_of_Z_small.
  - eexists. split; reflexivity.
  - apply andb_true_iff. split; [apply Z.leb_le|apply Z.ltb_lt]; lia.
Qed.

(** ** extractParams *)

Lemma convert_other raw K k f d d' k' :
  convert raw K k f d = Ok d' -> k' <> k ->
  dict_get p.eqb d' k' = dict_get p.eqb d k'.
Proof.
  unfold convert. intros H Hk.
  destruct (dict_get P.eqb raw K) as [v|].
  - inv_bind. apply dict_get_set_other. exact Hk.
  - inversion H. reflexivity.
Qed.

Lemma convert_present raw K k f d d' v :
  convert raw K k f d = Ok d' -> dict_get P.eqb raw K = Some v ->
  exists x, f v = Ok x /\ dict_get p.eqb d' k = Some x.
Proof.
  unfold convert. intros H Hv. rewrite Hv in H. inv_bind.
  eexists. split; [eassumption|apply dict_get_set_same].
Qed.

Lemma convert_missing raw K k f d d' :
  convert raw K k f d = Ok d' -> dict_get P.eqb raw K = None -> d' = d.
Proof.
  unfold convert. intros H Hv. rewrite Hv in H. inversion H. reflexivity.
Qed.

Lemma force_empty_manf_other d d' k' :
  force_empty_manf d = Ok d' -> k' <> p.MANF ->
  dict_get p.eqb d' k' = dict_get p.eqb d k'.
Proof.
  unfold force_empty_manf. intros H Hk.
  destruct (dict_get p.eqb d p.MANF) as [manf|]; [|discriminate].
  destruct (py_eq_empty_str manf || py_eq_int manf 0); inversion H.
  - apply dict_get_set_other. exact Hk.
  - reflexivity.
Qed.

(** Reads the entry under [k] back through the statements that assign
    to other names. *)
Ltac back k :=
  repeat match goal with
         | H : convert _ _ _ _ ?d = Ok ?d'
           |- context [dict_get p.eqb ?d' k] =>
             rewrite (convert_other _ _ _ _ _ _ k H) by discriminate
         | H : force_empty_manf ?d = Ok ?d'
           |- context [dict_get p.eqb ?d' k] =>
             rewrite (force_empty_manf_other _ _ k H) by discriminate
         end.

Lemma extractParams_flag raw params K k dflt :
  (K = P.EXPECT_REPLY /\ k = p.EXPECT_REPLY /\ dflt = true)
  \/ (K = P.FAIL_EXCEPTION /\ k = p.FAIL_EXCEPTION /\ dflt = false) ->
  extractParams raw = Ok params ->
  (forall v, dict_get P.eqb raw K = Some v ->
     exists w, str2int v = Ok w
               /\ dict_get p.eqb params k = Some (VBool (py_eq_int w 0)))
  /\ (dict_get P.eqb raw K = None ->
        dict_get p.eqb params k = Some (VBool dflt)).
Proof.
  intros HK H. unfold extractParams in H. inv_bind.
  destruct HK as [(-> & -> & ->)|(-> & -> & ->)].
  - match goal with
    | Hc : convert _ P.EXPECT_REPLY _ _ _ = Ok _ |- _ => rename Hc into Hstep
    end.
    split.
    + intros v Hv. back p.EXPECT_REPLY.
      destruct (convert_present _ _ _ _ _ _ _ Hstep Hv) as (flag & Hx & Hget).
      unfold is_zero in Hx. inv_bind. eauto.
    + intros Hv. back p.EXPECT_REPLY.
      rewrite (convert_missing _ _ _ _ _ _ Hstep Hv).
      back p.EXPECT_REPLY. reflexivity.
  - match goal with
    | Hc : convert _ P.FAIL_EXCEPTION _ _ _ = Ok _ |- _ => rename Hc into Hstep
    end.
    split.
    + intros v Hv. back p.FAIL_EXCEPTION.
      destruct (convert_present _ _ _ _ _ _ _ Hstep Hv) as (flag & Hx & Hget).
      unfold is_zero in Hx. inv_bind. eauto.
    + intros Hv. back p.FAIL_EXCEPTION.
      rewrite (convert_missing _ _ _ _ _ _ Hstep Hv).
      back p.FAIL_EXCEPTION. reflexivity.
Qed.

(** C5: when [extractParams] returns, the expect-reply entry is [True]
    exactly when the parsed raw field equals 0, and [True] when the raw
    field is missing; the fail-exception entry likewise, with [False] when
    the raw field is missing.  For the raw values "1" and "true" the
    entry is [False], for "0" and "false" it is [True]. *)
Theorem extractParams_reply_flags :
  (forall raw params, extractParams raw = Ok params ->
     (forall v, dict_get P.eqb raw P.EXPECT_REPLY = Some v ->
        exists w, str2int v = Ok w
                  /\ dict_get p.eqb params p.EXPECT_REPLY
                     = Some (VBool (py_eq_int w 0)))
     /\ (dict_get P.eqb raw P.EXPECT_REPLY = None ->
           dict_get p.eqb params p.EXPECT_REPLY = Some (VBool true))
     /\ (forall v, dict_get P.eqb raw P.FAIL_EXCEPTION = Some v ->
           exists w, str2int v = Ok w
                     /\ dict_get p.eqb params p.FAIL_EXCEPTION
                        = Some (VBool (py_eq_int w 0)))
     /\ (dict_get P.eqb raw P.FAIL_EXCEPTION = None ->
           dict_get p.eqb params p.FAIL_EXCEPTION = Some (VBool false)))
  /\ extracted [(P.EXPECT_REPLY, VStr "1")] p.EXPECT_REPLY
     = Some (VBool false)
  /\ extracted [(P.EXPECT_REPLY, VStr "true")] p.EXPECT_REPLY
     = Some (VBool false)
  /\ extracted [(P.EXPECT_REPLY, VStr "0")] p.EXPECT_REPLY
     = Some (VBool true)
  /\ extracted [(P.EXPECT_REPLY, VStr "false")] p.EXPECT_REPLY
     = Some (VBool true)
  /\ extracted [(P.FAIL_EXCEPTION, VStr "1")] p.FAIL_EXCEPTION
     = Some (VBool false)
  /\ extracted [(P.FAIL_EXCEPTION, VStr "true")] p.FAIL_EXCEPTION
     = Some (VBool false)
  /\ extracted [(P.FAIL_EXCEPTION, VStr "0")] p.FAIL_EXCEPTION
     = Some (VBool true)
  /\ extracted [(P.FAIL_EXCEPTION, VStr "false")] p.FAIL_EXCEPTION
     = Some (VBool true)
  /\ extracted [] p.EXPECT_REPLY = Some (VBool true)
  /\ extracted [] p.FAIL_EXCEPTION = Some (VBool false).
Proof.
  split; [|repeat split; vm_compute; reflexivity].
  intros raw params H.
  destruct (extractParams_flag raw params P.EXPECT_REPLY p.EXPECT_REPLY true)
    as [A1 A2]; [left; auto|exact H|].
  destruct (extractParams_flag raw params P.FAIL_EXCEPTION p.FAIL_EXCEPTION
              false) as [B1 B2]; [right; auto|exact H|].
  auto.
Qed.

(** A raw mapping with both flags given as integers, next to a cluster. *)
Lemma extractParams_reply_flags_witness :
  let raw := [(P.CLUSTER, VStr "0x0006"); (P.EXPECT_REPLY, VInt 1);
              (P.FAIL_EXCEPTION, VInt 0)] in
  exists params,
    extractParams raw = Ok params
    /\ dict_get p.eqb params p.EXPECT_REPLY = Some (VBool false)
    /\ dict_get p.eqb params p.FAIL_EXCEPTION = Some (VBool true).
Proof.
  cbv zeta. eexists. split; [vm_compute; reflexivity|].
  match goal with
  | |- dict_get _ ?d _ = _ /\ _ =>
      destruct (proj1 extractParams_reply_flags
                  [(P.CLUSTER, VStr "0x0006"); (P.EXPECT_REPLY, VInt 1);
                   (P.FAIL_EXCEPTION, VInt 0)] d eq_refl)
        as (A1 & _ & B1 & _)
  end.
  destruct (A1 (VInt 1) eq_refl) as (w & Hw & Hg).
  destruct (B1 (VInt 0) eq_refl) as (w' & Hw' & Hg').
  inversion Hw. inversion Hw'. subst. split; assumption.
Defined.

(** C9: on an empty raw mapping [extractParams] returns the dictionary
    it starts from, and each of its entries is the documented default:
    direction 0, tries 1, expect-reply true, an empty argument list,
    allow-create false, fail-exception false, read-before-write and
    read-after-write true, write-if-equal false, and [None] for every other
    field. *)
Theorem extractParams_empty_defaults :
  extractParams [] = Ok initial_params
  /\ forall k, dict_get p.eqb initial_params k = Some (documented_default k).
Proof.
  split; [reflexivity|]. intros k. destruct k; reflexivity.
Qed.

(** * Further properties *)

(** ** str2int and str2bool *)

Lemma py_int_is_int base s w : py_int base s = Ok w -> exists n, w = VInt n.
Proof.
  unfold py_int. destruct (parse_int base (to_ascii s)); intros H;
    inversion H; eauto.
Qed.

(** X1: [str2int] applied to a value it returned gives that value again:
    a parsed integer and a text that was left alone are both returned
    unchanged. *)
Theorem str2int_idempotent (v w : value) :
  str2int v = Ok w -> str2int w = Ok w.
Proof.
  intros H. destruct v; try (inversion H; subst; reflexivity).
  pose proof H as H0. unfold str2int in H.
  repeat match type of H with
         | (if ?b then _ else _) = _ => destruct b
         end;
    try (inversion H; subst; first [reflexivity | exact H0]);
    destruct (py_int_is_int _ _ _ H) as [n ->]; reflexivity.
Qed.

Lemma str2int_idempotent_witness :
  str2int (VInt 26) = Ok (VInt 26)
  /\ str2int (VStr "sensor.kitchen") = Ok (VStr "sensor.kitchen").
Proof.
  split.
  - apply (str2int_idempotent (VStr "0x1A")). reflexivity.
  - apply (str2int_idempotent (VStr "sensor.kitchen")). reflexivity.
Defined.

Lemma digit_value_nonneg c : 0 <= digit_value c.
Proof.
  unfold digit_value, between.
  assert (0 <= ord c) by (unfold ord; lia).
  repeat match goal with
         | |- context [if ?a && ?b then _ else _] =>
             destruct a eqn:?; destruct b eqn:?; cbn [andb]
         end;
    repeat match goal with
           | E : (_ <=? _) = true |- _ => apply Z.leb_le in E
           end; lia.
Qed.

Lemma scan_digits_nonneg base s :
  0 <= base ->
  forall prev seen acc n rest,
    0 <= acc -> scan_digits base s prev seen acc = Some (n, rest) -> 0 <= n.
Proof.
  intros Hb. induction s as [|c r IH]; intros prev seen acc n rest Hacc H.
  - cbn in H. destruct prev; [discriminate|]. destruct seen; inversion H.
    subst. exact Hacc.
  - cbn [scan_digits] in H. destruct (c =? "_")%char.
    + destruct prev; [discriminate|]. eapply IH; eassumption.
    + destruct (digit_value c <? base).
      * eapply IH; [|eassumption].
        pose proof (digit_value_nonneg c). nia.
      * destruct prev; [discriminate|]. destruct seen; inversion H.
        subst. exact Hacc.
Qed.

(** Without a minus sign in front, a parsed integer is not negative. *)
Lemma parse_int_nonneg base c r n :
  0 <= base -> is_space c = false -> (c =? "-")%char = false ->
  parse_int base (String c r) = Some n -> 0 <= n.
Proof.
  intros Hb Hsp Hmi. unfold parse_int. cbn [lstrip]. rewrite Hsp.
  unfold strip_sign. rewrite Hmi.
  destruct (c =? "+")%char.
  - destruct (strip_prefix base r) as [|u t] eqn:Ep.
    + discriminate.
    + set (sc := scan_digits base (String u t) false false 0).
      destruct sc as [[m rest]|] eqn:Es;
        [|intros H; each_char u].
      intros H.
      assert (Hm : 0 <= m)
        by (eapply scan_digits_nonneg; [exact Hb| |exact Es]; lia).
      destruct (all_space rest); [|each_char u].
      destruct (digits_allowed base (String u t)); [|each_char u].
      assert (n = m) by (each_char u; congruence). subst. exact Hm.
  - destruct (strip_prefix base (String c r)) as [|u t] eqn:Ep.
    + discriminate.
    + set (sc := scan_digits base (String u t) false false 0).
      destruct sc as [[m rest]|] eqn:Es;
        [|intros H; each_char u].
      intros H.
      assert (Hm : 0 <= m)
        by (eapply scan_digits_nonneg; [exact Hb| |exact Es]; lia).
      destruct (all_space rest); [|each_char u].
      destruct (digits_allowed base (String u t)); [|each_char u].
      assert (n = m) by (each_char u; congruence). subst. exact Hm.
Qed.

Lemma numeric_head c :
  isnumeric_char c = true ->
  is_space (to_ascii_char c) = false
  /\ (to_ascii_char c =? "-")%char = false.
Proof. intros H. each_char c; split; reflexivity. Qed.

Lemma py_int_numeric_nonneg base s n :
  0 <= base -> isnumeric s = true -> py_int base s = Ok (VInt n) -> 0 <= n.
Proof.
  intros Hb Hn H. destruct s as [|c r]; [discriminate|].
  simpl in Hn. apply andb_true_iff in Hn. destruct Hn as [Hc _].
  destruct (numeric_head c Hc) as [Hsp Hmi].
  unfold py_int in H. cbn [to_ascii] in H.
  destruct (parse_int base (String (to_ascii_char c) (to_ascii r))) as [m|]
    eqn:E; [|discriminate].
  inversion H. subst. eapply parse_int_nonneg; eassumption.
Qed.

Lemma str2int_nonneg s n : str2int (VStr s) = Ok (VInt n) -> 0 <= n.
Proof.
  unfold str2int.
  destruct (lower s =? "false")%string; [intros H; inversion H; lia|].
  destruct (lower s =? "true")%string; [intros H; inversion H; lia|].
  destruct (startswith "0x" s || startswith "0X" s) eqn:Hx.
  { intros H.
    assert (H0 : exists r, s = String "0" r).
    { destruct s as [|c [|c1 r]]; cbn [startswith] in Hx;
        [discriminate | rewrite !andb_false_r in Hx; discriminate | ].
      destruct (Ascii.eqb_spec "0" c) as [<-|]; [eauto|discriminate]. }
    destruct H0 as [r ->]. unfold py_int in H. cbn [to_ascii] in H.
    change (to_ascii_char "0") with "0"%char in H.
    destruct (parse_int 16 (String "0" (to_ascii r))) as [m|] eqn:E;
      [|discriminate].
    inversion H. subst.
    eapply (parse_int_nonneg 16 "0"); [lia|reflexivity|reflexivity|exact E]. }
  destruct (startswith "0" s && isnumeric s) eqn:H8.
  { apply andb_true_iff in H8. destruct H8 as [_ Hn].
    apply py_int_numeric_nonneg; [lia|exact Hn]. }
  destruct (startswith "b" s && isnumeric (slice1 s)) eqn:H2.
  { apply andb_true_iff in H2. destruct H2 as [_ Hn].
    apply py_int_numeric_nonneg; [lia|exact Hn]. }
  destruct (isnumeric s) eqn:Hn.
  { apply py_int_numeric_nonneg; [lia|exact Hn]. }
  discriminate.
Qed.


(** X2: an integer that [str2int] reads from a text is never negative. *)
Theorem str2int_text_nonneg (s : string) (n : Z) :
  str2int (VStr s) = Ok (VInt n) -> 0 <= n.
Proof. exact (str2int_nonneg s n). Qed.

Lemma str2int_text_nonneg_witness :
  str2int (VStr "0x1A") = Ok (VInt 26) /\ 0 <= 26.
Proof.
  split; [reflexivity|]. apply (str2int_text_nonneg "0x1A"). reflexivity.
Defined.

(** X3: a text whose first character is not f, F, t, T, 0, b or a numeric
    character is returned unchanged; so a number with a sign or a blank
    in front is not parsed. *)
Theorem str2int_first_char_passes (c : ascii) (r : string) :
  lower_char c <> "f"%char -> lower_char c <> "t"%char ->
  c <> "0"%char -> c <> "b"%char -> isnumeric_char c = false ->
  str2int (VStr (String c r)) = Ok (VStr (String c r)).
Proof.
  intros Hf Ht H0 Hb Hn.
  destruct (not_keyword c r Hf Ht) as [K1 K2].
  unfold str2int. rewrite K1, K2. cbn [startswith isnumeric all_chars].
  assert (E0 : ("0" =? c)%char = false)
    by (apply Ascii.eqb_neq; congruence).
  assert (Eb : ("b" =? c)%char = false)
    by (apply Ascii.eqb_neq; congruence).
  rewrite E0, Eb, Hn. reflexivity.
Qed.

Lemma str2int_first_char_passes_witness :
  str2int (VStr "-5") = Ok (VStr "-5")
  /\ str2int (VStr " 12") = Ok (VStr " 12").
Proof.
  split; apply str2int_first_char_passes;
    first [reflexivity | intros E; cbv in E; discriminate E].
Defined.

(** X4: an all-numeric text that is not made of digits of the base it is
    read in makes [str2int] raise ValueError: after b, a remainder with a
    character other than 0 and 1; without a leading 0, a text with a
    numeric character that is not a decimal digit. *)
Theorem str2int_numeric_not_digits :
  (forall s, startswith "b" s = true -> isnumeric (slice1 s) = true ->
     all_chars (is_digit 2) (slice1 s) = false ->
     str2int (VStr s) = Raise ValueError)
  /\ (forall s, isnumeric s = true -> startswith "0" s = false ->
        all_chars (is_digit 10) s = false ->
        str2int (VStr s) = Raise ValueError).
Proof.
  split.
  - intros s Hb Hn Hd.
    rewrite (str2int_binary_rule s Hb Hn), (py_int_numeric 2 _ Hn), Hd.
    reflexivity.
  - intros s Hn H0 Hd.
    rewrite (str2int_decimal_rule s Hn H0), (py_int_numeric 10 _ Hn), Hd.
    reflexivity.
Qed.

Lemma str2int_numeric_not_digits_witness :
  str2int (VStr "b102") = Raise ValueError
  /\ str2int (VStr (String "1" (String (ascii_of_N 178) EmptyString)))
     = Raise ValueError.
Proof.
  split.
  - apply (proj1 str2int_numeric_not_digits); reflexivity.
  - apply (proj2 str2int_numeric_not_digits); reflexivity.
Defined.

Lemma scan_to_end_solid base s :
  all_chars solid s = true ->
  forall seen acc,
    scan_to_end base s seen acc =
    if all_chars (is_digit base) s
    then (if seen || nonempty s then Some (digits_val base s acc) else None)
    else None.
Proof.
  unfold scan_to_end.
  induction s as [|c r IH]; intros Hall seen acc.
  - simpl. destruct seen; reflexivity.
  - simpl in Hall. apply andb_true_iff in Hall. destruct Hall as [Hc Hr].
    unfold solid in Hc. apply andb_true_iff in Hc. destruct Hc as [Hsp Hus].
    apply negb_true_iff in Hsp. apply negb_true_iff in Hus.
    cbn [scan_digits all_chars digits_val nonempty].
    rewrite Hus. unfold is_digit at 1.
    destruct (digit_value c <? base) eqn:Hd.
    + cbn [andb]. rewrite (IH Hr true). rewrite orb_true_r.
      cbn [orb]. reflexivity.
    + cbn [andb]. destruct seen; [|reflexivity].
      unfold all_space. cbn [lstrip]. rewrite Hsp. reflexivity.
Qed.

Lemma alnum_plain c : alnum c = true -> to_ascii_char c = c /\ solid c = true.
Proof. intros H. each_char c; split; reflexivity. Qed.

Lemma to_ascii_alnum s :
  all_chars alnum s = true -> to_ascii s = s /\ all_chars solid s = true.
Proof.
  induction s as [|c r IH]; intros H; [split; reflexivity|].
  simpl in H. apply andb_true_iff in H. destruct H as [Hc Hr].
  destruct (alnum_plain c Hc) as [E1 E2]. destruct (IH Hr) as [E3 E4].
  cbn [to_ascii all_chars]. rewrite E1, E2, E3, E4. split; reflexivity.
Qed.

(** X5: after the prefix 0x or 0X, a remainder of letters and digits that
    is empty or holds a character that is no hexadecimal digit makes
    [str2int] raise ValueError; the text is not returned. *)
Theorem str2int_hex_not_digits (x : ascii) (h : string) :
  x = "x"%char \/ x = "X"%char ->
  all_chars alnum h = true ->
  nonempty h && all_chars (is_digit 16) h = false ->
  str2int (VStr (String "0" (String x h))) = Raise ValueError.
Proof.
  intros Hx Hal Hd.
  rewrite str2int_hex_rule by (destruct Hx; subst; reflexivity).
  destruct (to_ascii_alnum h Hal) as [E1 E2].
  unfold py_int. cbn [to_ascii]. rewrite E1.
  assert (Ex : to_ascii_char x = x) by (destruct Hx; subst; reflexivity).
  rewrite Ex. change (to_ascii_char "0") with "0"%char.
  assert (Hp : parse_int 16 (String "0" (String x h)) = None);
    [|rewrite Hp; reflexivity].
  unfold parse_int. cbn [lstrip]. change (is_space "0") with false.
  cbv iota. unfold strip_sign.
  change ("0" =? "+")%char with false. change ("0" =? "-")%char with false.
  cbv iota.
  destruct h as [|c r].
  - destruct Hx; subst; reflexivity.
  - pose proof (scan_to_end_solid 16 (String c r) E2 false 0) as Hs.
    cbn [nonempty andb] in Hd. rewrite Hd in Hs. unfold scan_to_end in Hs.
    simpl in E2. apply andb_true_iff in E2. destruct E2 as [Hc _].
    unfold solid in Hc. apply andb_true_iff in Hc. destruct Hc as [_ Hus].
    apply negb_true_iff in Hus.
    assert (Hsp : strip_prefix 16 (String "0" (String x (String c r)))
                  = String c r).
    { unfold strip_prefix. rewrite Hus. destruct Hx; subst; reflexivity. }
    rewrite Hsp.
    destruct (scan_digits 16 (String c r) false false 0) as [[n rest]|];
      [|each_char c].
    destruct (all_space rest); [discriminate Hs|each_char c].
Qed.

Lemma str2int_hex_not_digits_witness :
  str2int (VStr "0x") = Raise ValueError
  /\ str2int (VStr "0X1G") = Raise ValueError.
Proof.
  split.
  - apply (str2int_hex_not_digits "x" ""); [left| |]; reflexivity.
  - apply (str2int_hex_not_digits "X" "1G"); [right| |]; reflexivity.
Defined.

(** X6: [str2bool] gives [True] for every text that is not empty, does
    not lower-case to false and is not read as a number by [str2int]
    (no 0x prefix, not all-numeric, not b with an all-numeric remainder):
    words such as off, no or disabled count as true. *)
Theorem str2bool_word_is_true (s : string) :
  s <> EmptyString ->
  lower s <> "false" ->
  startswith "0x" s || startswith "0X" s = false ->
  isnumeric s = false ->
  startswith "b" s && isnumeric (slice1 s) = false ->
  str2bool (VStr s) = Ok (VBool true).
Proof.
  intros Hs Hf Hx Hn Hb. destruct s as [|c r]; [congruence|].
  unfold str2bool. cbn [is_None py_eq_empty_str orb].
  destruct (String.eqb_spec (lower (String c r)) "true") as [Ht|Ht].
  - unfold str2int. rewrite Ht.
    destruct ("true" =? "false")%string eqn:E; [discriminate E|].
    reflexivity.
  - rewrite (str2int_other_rule _ Hf Ht Hx Hn Hb). reflexivity.
Qed.

Lemma str2bool_word_is_true_witness :
  str2bool (VStr "off") = Ok (VBool true)
  /\ str2bool (VStr "no") = Ok (VBool true).
Proof.
  split; apply str2bool_word_is_true;
    first [reflexivity | intros E; cbv in E; discriminate E].
Defined.

(** ** find_endpoint *)

Lemma count_endpoints_input {C} cid (items : list (Z * Endpoint C)) :
  forall cnt endpoint_id,
    count_endpoints in_clusters (VInt cid) items (cnt, endpoint_id) =
    Ok (cnt + Z.of_nat (List.length (input_matches cid items)),
        match rev (input_matches cid items) with
        | k :: _ => Some k
        | [] => endpoint_id
        end).
Proof.
  induction items as [|[k e] r IH]; intros cnt endpoint_id.
  - cbn. f_equal. f_equal. lia.
  - cbn [count_endpoints input_matches].
    destruct (k =? 0) eqn:E0; cbn [negb andb].
    + apply IH.
    + unfold py_in. cbn [int_key bind].
      destruct (dict_mem Z.eqb (in_clusters e) cid) eqn:Em.
      * cbn [fst]. rewrite IH. cbn [List.length rev].
        f_equal. f_equal; [lia|].
        destruct (rev (input_matches cid r)) as [|k' t]; reflexivity.
      * apply IH.
Qed.

Lemma find_endpoint_by_matches {C} (dev : Device C) (cid : Z) :
  find_endpoint dev (VInt cid) =
  Ok (match input_matches cid (endpoints dev) with
      | [k] => Some k
      | _ => None
      end).
Proof.
  unfold find_endpoint. rewrite count_endpoints_input. cbn [bind fst].
  destruct (input_matches cid (endpoints dev)) as [|k [|k' t]] eqn:Em.
  - cbn [List.length rev]. change (0 + Z.of_nat 0 =? 0) with true.
    cbv iota. rewrite count_endpoints_input, Em. reflexivity.
  - reflexivity.
  - cbn [List.length]. 
    assert (H0 : (0 + Z.of_nat (S (S (List.length t))) =? 0) = false)
      by (apply Z.eqb_neq; lia).
    rewrite H0. cbn [bind].
    assert (H1 : (1 <? 0 + Z.of_nat (S (S (List.length t)))) = true)
      by (apply Z.ltb_lt; lia).
    rewrite H1. reflexivity.
Qed.

(** X7: for an integer cluster id, [find_endpoint] returns the endpoint
    when exactly one endpoint other than 0 lists the cluster among its
    input clusters, and [None] when none or several do. *)
Theorem find_endpoint_unique_input {C} (dev : Device C) (cid : Z) :
  find_endpoint dev (VInt cid) =
  Ok (match input_matches cid (endpoints dev) with
      | [k] => Some k
      | _ => None
      end).
Proof. exact (find_endpoint_by_matches dev cid). Qed.

Lemma input_matches_sound {C} cid (items : list (Z * Endpoint C)) k :
  In k (input_matches cid items) ->
  k <> 0 /\ exists e, In (k, e) items
                      /\ dict_mem Z.eqb (in_clusters e) cid = true.
Proof.
  induction items as [|[k0 e0] r IH]; [intros []|].
  cbn [input_matches].
  destruct (negb (k0 =? 0) && dict_mem Z.eqb (in_clusters e0) cid) eqn:E.
  - intros [<-|Hin].
    + apply andb_true_iff in E. destruct E as [E0 Em].
      apply negb_true_iff in E0. apply Z.eqb_neq in E0.
      split; [exact E0|]. exists e0. split; [left; reflexivity|exact Em].
    + destruct (IH Hin) as (H0 & e & He & Hm).
      split; [exact H0|]. exists e. split; [right; exact He|exact Hm].
  - intros Hin. destruct (IH Hin) as (H0 & e & He & Hm).
    split; [exact H0|]. exists e. split; [right; exact He|exact Hm].
Qed.

(** X8: an endpoint [find_endpoint] returns is never endpoint 0, is in
    the device's table, and lists the cluster among its input clusters. *)
Theorem find_endpoint_sound {C} (dev : Device C) (cid k : Z) :
  find_endpoint dev (VInt cid) = Ok (Some k) ->
  k <> 0 /\ exists e, In (k, e) (endpoints dev)
                      /\ dict_mem Z.eqb (in_clusters e) cid = true.
Proof.
  rewrite find_endpoint_by_matches. intros H.
  apply (input_matches_sound cid (endpoints dev) k).
  destruct (input_matches cid (endpoints dev)) as [|k0 [|k1 t]];
    inversion H. left. reflexivity.
Qed.

Lemma find_endpoint_sound_witness :
  let dev := {| endpoints := [(0, {| in_clusters := [(6, tt)];
                                     out_clusters := [] |});
                              (1, {| in_clusters := [(0, tt)];
                                     out_clusters := [(6, tt)] |});
                              (2, {| in_clusters := [(6, tt)];
                                     out_clusters := [] |})];
                ieee := "00:11:22:33:44:55:66:77" |} in
  find_endpoint dev (VInt 6) = Ok (Some 2)
  /\ 2 <> 0
  /\ exists e, In (2, e) (endpoints dev)
               /\ dict_mem Z.eqb (in_clusters e) 6 = true.
Proof.
  cbv zeta. split; [reflexivity|].
  apply (find_endpoint_sound _ 6 2). reflexivity.
Defined.

(** ** get_cluster_from_params *)

Ltac run_M :=
  unfold bindM, params_get, params_set, lift, ret, raise,
    py_in, py_getitem, dict_mem;
  repeat (cbn [st_params st_event_data int_key bind is_None py_eq_empty_str
               orb negb isinstance_int of_endpoint_id];
          match goal with
          | H : dict_get _ _ _ = _ |- _ => rewrite H
          | H : find_endpoint _ _ = _ |- _ => rewrite H
          end).

Lemma resolve_cluster_in_hit {C} (dev : Device C) (s : state)
    (ep cid : Z) (e : Endpoint C) (c : C) :
  dict_get p.eqb (st_params s) p.EP_ID = Some (VInt ep) ->
  dict_get p.eqb (st_params s) p.CLUSTER_ID = Some (VInt cid) ->
  dict_get Z.eqb (endpoints dev) ep = Some e ->
  dict_get Z.eqb (in_clusters e) cid = Some c ->
  resolve_cluster dev s = (s, Ok c).
Proof.
  intros Hep Hcid He Hc. unfold resolve_cluster. run_M. reflexivity.
Qed.

(** X9: with an endpoint id that is on the device and an integer cluster
    id among the endpoint's input clusters, [get_cluster_from_params]
    returns that input cluster and changes neither [params] nor
    [event_data]. *)
Theorem get_cluster_from_params_in_hit {C} (dev : Device C) (s : state)
    (ep cid : Z) (e : Endpoint C) (c : C) :
  dict_get p.eqb (st_params s) p.EP_ID = Some (VInt ep) ->
  dict_get p.eqb (st_params s) p.CLUSTER_ID = Some (VInt cid) ->
  dict_get Z.eqb (endpoints dev) ep = Some e ->
  dict_get Z.eqb (in_clusters e) cid = Some c ->
  get_cluster_from_params dev s = (s, Ok c).
Proof.
  intros Hep Hcid He Hc. rewrite get_cluster_from_params_split.
  unfold bindM at 1. unfold params_get at 1. rewrite Hep.
  cbn [is_None py_eq_empty_str orb]. unfold bindM at 1, ret.
  apply (resolve_cluster_in_hit dev s ep cid e c); assumption.
Qed.

Lemma get_cluster_from_params_in_hit_witness :
  let dev := {| endpoints := [(1, {| in_clusters := [(6, "on_off")];
                                     out_clusters := [] |})];
                ieee := "00:11:22:33:44:55:66:77" |} in
  let params := dict_set p.eqb
                  (dict_set p.eqb initial_params p.EP_ID (VInt 1))
                  p.CLUSTER_ID (VInt 6) in
  let s := {| st_params := params;
              st_event_data := {| warnings := None |} |} in
  get_cluster_from_params dev s = (s, Ok "on_off").
Proof.
  cbv zeta.
  apply (get_cluster_from_params_in_hit _ _ 1 6
           {| in_clusters := [(6, "on_off")]; out_clusters := [] |});
    reflexivity.
Defined.

Lemma dict_get_In {A} (items : list (Z * A)) k a :
  NoDup (map fst items) -> In (k, a) items ->
  dict_get Z.eqb items k = Some a.
Proof.
  induction items as [|[k0 a0] r IH]; intros Hnd Hin; [destruct Hin|].
  cbn [map fst] in Hnd. inversion Hnd as [|x l Hnotin Hnd']. subst.
  cbn [dict_get]. destruct Hin as [E|Hin].
  - inversion E. subst. rewrite Z.eqb_refl. reflexivity.
  - destruct (Z.eqb_spec k k0) as [->|_].
    + exfalso. apply Hnotin. apply (in_map fst) in Hin. exact Hin.
    + apply IH; assumption.
Qed.

(** X10: when the endpoint id is absent, the cluster id is an integer
    and exactly one endpoint other than 0 lists it among its input
    clusters, [get_cluster_from_params] stores that endpoint in [params]
    and returns its input cluster (the endpoint ids of the table being
    distinct, as the keys of a dictionary are). *)
Theorem get_cluster_from_params_resolves {C} (dev : Device C)
    (params : params_dict) (event_data : EventData) (v : value) (cid k : Z) :
  dict_get p.eqb params p.EP_ID = Some v ->
  absent v = true ->
  dict_get p.eqb params p.CLUSTER_ID = Some (VInt cid) ->
  input_matches cid (endpoints dev) = [k] ->
  NoDup (map fst (endpoints dev)) ->
  exists e c,
    dict_get Z.eqb (endpoints dev) k = Some e
    /\ dict_get Z.eqb (in_clusters e) cid = Some c
    /\ get_cluster_from_params dev
         {| st_params := params; st_event_data := event_data |}
       = ({| st_params := dict_set p.eqb params p.EP_ID (VInt k);
             st_event_data := event_data |}, Ok c).
Proof.
  intros Hep Habs Hcid Hm Hnd.
  destruct (input_matches_sound cid (endpoints dev) k) as (_ & e & He & Hmem).
  { rewrite Hm. left. reflexivity. }
  pose proof (dict_get_In _ _ _ Hnd He) as Hget.
  unfold dict_mem in Hmem.
  destruct (dict_get Z.eqb (in_clusters e) cid) as [c|] eqn:Hc;
    [|discriminate].
  exists e, c. split; [exact Hget|]. split; [exact Hc|].
  pose proof (find_endpoint_by_matches dev cid) as Hf. rewrite Hm in Hf.
  rewrite get_cluster_from_params_split.
  unfold bindM at 1. unfold params_get at 1. cbn [st_params].
  rewrite Hep. unfold absent in Habs. rewrite Habs.
  unfold bindM at 1 2. unfold params_get at 1. cbn [st_params].
  rewrite Hcid. unfold bindM at 1. unfold lift at 1. rewrite Hf.
  unfold params_set. cbn [st_params st_event_data of_endpoint_id].
  apply (resolve_cluster_in_hit dev _ k cid e c); cbn [st_params].
  - apply dict_get_set_same.
  - rewrite dict_get_set_other by discriminate. exact Hcid.
  - exact Hget.
  - exact Hc.
Qed.

Lemma get_cluster_from_params_resolves_witness :
  let dev := {| endpoints := [(0, {| in_clusters := [(6, "zdo")];
                                     out_clusters := [] |});
                              (3, {| in_clusters := [(6, "on_off")];
                                     out_clusters := [] |})];
                ieee := "00:11:22:33:44:55:66:77" |} in
  let params := dict_set p.eqb initial_params p.CLUSTER_ID (VInt 6) in
  get_cluster_from_params dev
    {| st_params := params; st_event_data := {| warnings := None |} |}
  = ({| st_params := dict_set p.eqb params p.EP_ID (VInt 3);
        st_event_data := {| warnings := None |} |}, Ok "on_off").
Proof.
  cbv zeta.
  destruct (get_cluster_from_params_resolves
              {| endpoints := [(0, {| in_clusters := [(6, "zdo")];
                                      out_clusters := [] |});
                               (3, {| in_clusters := [(6, "on_off")];
                                      out_clusters := [] |})];
                 ieee := "00:11:22:33:44:55:66:77" |}
              (dict_set p.eqb initial_params p.CLUSTER_ID (VInt 6))
              {| warnings := None |} VNone 6 3
              eq_refl eq_refl eq_refl eq_refl)
    as (e & c & He & Hc & Hrun).
  - cbn. repeat constructor; cbn; intuition discriminate.
  - rewrite Hrun. inversion He. subst e. inversion Hc. reflexivity.
Defined.

(** X11: when the endpoint id is absent and [find_endpoint] finds no
    single endpoint, [get_cluster_from_params] stores [None] as endpoint
    id and raises the endpoint-not-found exception, whatever the cluster
    id is. *)
Theorem get_cluster_from_params_unresolved {C} (dev : Device C)
    (params : params_dict) (event_data : EventData) (v cid : value) :
  dict_get p.eqb params p.EP_ID = Some v ->
  absent v = true ->
  dict_get p.eqb params p.CLUSTER_ID = Some cid ->
  find_endpoint dev cid = Ok None ->
  get_cluster_from_params dev
    {| st_params := params; st_event_data := event_data |}
  = ({| st_params := dict_set p.eqb params p.EP_ID VNone;
        st_event_data := event_data |},
     Raise (Exception (Msg_endpoint_not_found VNone (ieee dev)))).
Proof.
  intros Hep Habs Hcid Hf.
  unfold get_cluster_from_params.
  unfold bindM at 1. unfold params_get at 1. cbn [st_params].
  rewrite Hep. unfold absent in Habs. rewrite Habs.
  unfold bindM at 1 2. unfold params_get at 1. cbn [st_params].
  rewrite Hcid. unfold bindM at 1. unfold lift at 1. rewrite Hf.
  unfold params_set. cbn [st_params st_event_data of_endpoint_id].
  unfold bindM at 1. unfold params_get at 1. cbn [st_params].
  rewrite dict_get_set_same. reflexivity.
Qed.

Lemma get_cluster_from_params_unresolved_witness :
  let dev := {| endpoints := [(1, {| in_clusters := [(6, tt)];
                                     out_clusters := [] |})];
                ieee := "00:11:22:33:44:55:66:77" |} in
  get_cluster_from_params dev
    {| st_params := initial_params;
       st_event_data := {| warnings := None |} |}
  = ({| st_params := initial_params;
        st_event_data := {| warnings := None |} |},
     Raise (Exception
              (Msg_endpoint_not_found VNone "00:11:22:33:44:55:66:77"))).
Proof.
  cbv zeta.
  exact (get_cluster_from_params_unresolved
           {| endpoints := [(1, {| in_clusters := [(6, tt)];
                                   out_clusters := [] |})];
              ieee := "00:11:22:33:44:55:66:77" |}
           initial_params {| warnings := None |} VNone VNone
           eq_refl eq_refl eq_refl eq_refl).
Defined.

(** ** attr_encode *)

Lemma mapM_bytes_not_small l :
  all_small l = false -> mapM byte_of_value (map VInt l) = Raise ValueError.
Proof.
  induction l as [|n r IH]; [discriminate|].
  cbn [all_small forallb map mapM byte_of_value]. intros H.
  destruct ((0 <=? n) && (n <? 256)) eqn:En.
  - rewrite (byte_of_Z_small n En). cbn [bind andb] in *.
    rewrite (IH H). reflexivity.
  - unfold byte_of_Z. rewrite En. reflexivity.
Qed.

Section AttrEncodeFurther.
Context (can_allocate : Z -> bool).
Context {BoolT : Type} (t_Bool : value -> result BoolT).
Context {DataType DataT : Type}.
Context (construct : DataType -> value + DataT -> result DataT).
Context (DATA_TYPES : list (Z * DataType)).

(** X12: for datatype code 0x41 or 0x42 and a raw value that is a list
    of integers between 0 and 255, [attr_encode] returns a typed value
    whose payload is the bytes of the elements, one byte each, with the
    same bytes as comparison value and no message. *)
Theorem attr_encode_octet_small_list (l : list Z) (code : Z) :
  code = 0x41 \/ code = 0x42 ->
  all_small l = true ->
  attr_encode can_allocate t_Bool construct DATA_TYPES (VList (map VInt l)) (VInt code)
  = Ok (Some {| tv_type := VInt code; tv_value := P_LVBytes (bytes_of l) |},
        None, CV_LVBytes (bytes_of l)).
Proof.
  intros Hc Hl. destruct (bytes_of_small l Hl) as (I1 & I2 & I3).
  assert (E : attr_encode can_allocate t_Bool construct DATA_TYPES
                (VList (map VInt l)) (VInt code) =
              (r <- (compare_val <- mapM byte_of_value (map VInt l) ;;
                     attr_val_in <- (l' <- uint8_list (map VInt l) ;;
                                     Ok (VUint8List l')) ;;
                     b <- LVBytes can_allocate attr_val_in ;;
                     Ok (Some {| tv_type := VInt code;
                                 tv_value := P_LVBytes b |},
                         attr_val_in, CV_LVBytes compare_val)) ;;
               let '(attr_obj, attr_val_in, compare_val) := r in
               Ok (attr_obj,
                   match attr_obj with
                   | None =>
                       Some (Msg_attr_not_supported (VInt code) attr_val_in)
                   | Some _ => None
                   end, compare_val))).
  { destruct Hc; subst code; reflexivity. }
  rewrite E, I2, I3. cbn [bind LVBytes py_bytes]. rewrite I1. reflexivity.
Qed.

(** X13: for datatype code 0x41 or 0x42 and a raw value that is a list
    of integers one of which is below 0 or above 255, [attr_encode]
    raises ValueError. *)
Theorem attr_encode_octet_large_element (l : list Z) (code : Z) :
  code = 0x41 \/ code = 0x42 ->
  all_small l = false ->
  attr_encode can_allocate t_Bool construct DATA_TYPES (VList (map VInt l)) (VInt code)
  = Raise ValueError.
Proof.
  intros Hc Hl.
  assert (E : attr_encode can_allocate t_Bool construct DATA_TYPES
                (VList (map VInt l)) (VInt code) =
              (r <- (compare_val <- mapM byte_of_value (map VInt l) ;;
                     attr_val_in <- (l' <- uint8_list (map VInt l) ;;
                                     Ok (VUint8List l')) ;;
                     b <- LVBytes can_allocate attr_val_in ;;
                     Ok (Some {| tv_type := VInt code;
                                 tv_value := P_LVBytes b |},
                         attr_val_in, CV_LVBytes compare_val)) ;;
               let '(attr_obj, attr_val_in, compare_val) := r in
               Ok (attr_obj,
                   match attr_obj with
                   | None =>
                       Some (Msg_attr_not_supported (VInt code) attr_val_in)
                   | Some _ => None
                   end, compare_val))).
  { destruct Hc; subst code; reflexivity. }
  rewrite E, (mapM_bytes_not_small l Hl). reflexivity.
Qed.

(** X14: with datatype code 0xFF, or with no datatype, a raw value that
    [str2int] reads as the integer [n] is encoded as [n] zero bytes when
    [n] is not negative and the interpreter can allocate that many
    bytes: the integer is taken as a length. *)
Theorem attr_encode_unknown_type_integer (v ty : value) (n : Z) :
  ty = VInt 0xFF \/ ty = VNone ->
  str2int v = Ok (VInt n) ->
  0 <= n <= max_bytes_size ->
  can_allocate n = true ->
  attr_encode can_allocate t_Bool construct DATA_TYPES v ty
  = Ok (Some {| tv_type := ty;
                tv_value := P_LVBytes (repeat zero_byte (Z.to_nat n)) |},
        None, CV (VInt n)).
Proof.
  intros Hty Hs Hn Ha.
  assert (E : attr_encode can_allocate t_Bool construct DATA_TYPES v ty =
              (r <- (compare_val <- str2int v ;;
                     b <- LVBytes can_allocate compare_val ;;
                     Ok (Some {| tv_type := ty; tv_value := P_LVBytes b |},
                         v, CV compare_val)) ;;
               let '(attr_obj, attr_val_in, compare_val) := r in
               Ok (attr_obj,
                   match attr_obj with
                   | None => Some (Msg_attr_not_supported ty attr_val_in)
                   | Some _ => None
                   end, compare_val))).
  { destruct Hty; subst ty; reflexivity. }
  rewrite E, Hs. cbn [bind LVBytes py_bytes].
  assert (H1 : (n <? 0) = false) by (apply Z.ltb_ge; lia).
  assert (H2 : (max_bytes_size <? n) = false) by (apply Z.ltb_ge; lia).
  rewrite H1, H2, Ha. reflexivity.
Qed.

Lemma attr_encode_int_branch (v : value) (code : Z) (ty : int_type) :
  int_code code = Some ty ->
  attr_encode can_allocate t_Bool construct DATA_TYPES v (VInt code) =
  (r <- encode_int BoolT DataT ty v (VInt code) ;;
   let '(attr_obj, attr_val_in, compare_val) := r in
   Ok (attr_obj,
       match attr_obj with
       | None => Some (Msg_attr_not_supported (VInt code) attr_val_in)
       | Some _ => None
       end, compare_val)).
Proof.
  intros Hc. unfold int_code in Hc.
  repeat match type of Hc with
         | (if code =? ?k then _ else _) = Some _ =>
             destruct (Z.eqb_spec code k) as [E|_];
             [subst code; inversion Hc; subst ty; reflexivity|]
         end.
  discriminate Hc.
Qed.

(** X15: a typed value [attr_encode] returns for an integer datatype
    code carries that code and an integer of the code's class that lies
    within the range of the class. *)
Theorem attr_encode_int_in_range (v : value) (code : Z) (ty : int_type)
    (tv : TypeValue BoolT DataT) (m : option message) (c : cmpval DataT) :
  int_code code = Some ty ->
  attr_encode can_allocate t_Bool construct DATA_TYPES v (VInt code) = Ok (Some tv, m, c) ->
  exists n, tv = {| tv_type := VInt code; tv_value := P_int ty n |}
            /\ min_value ty <= n <= max_value ty.
Proof.
  intros Hc H. rewrite (attr_encode_int_branch v code ty Hc) in H.
  unfold encode_int, int_new in H. inv_bind.
  match goal with
  | E : (_ <=? ?n) && (?n <=? _) = true |- _ =>
      apply andb_true_iff in E; destruct E as [E1 E2];
      apply Z.leb_le in E1; apply Z.leb_le in E2;
      exists n; split; [reflexivity|lia]
  end.
Qed.
End AttrEncodeFurther.

Lemma attr_encode_octet_small_list_witness :
  sample_encode (VList [VInt 1; VInt 2; VInt 255]) (VInt 0x41)
  = Ok (Some {| tv_type := VInt 0x41;
                tv_value := P_LVBytes [x01; x02; xff] |},
        None, CV_LVBytes [x01; x02; xff]).
Proof.
  exact (attr_encode_octet_small_list sample_can_allocate sample_Bool sample_construct
           sample_DATA_TYPES [1; 2; 255] 0x41 (or_introl eq_refl) eq_refl).
Defined.

Lemma attr_encode_octet_large_element_witness :
  sample_encode (VList [VInt 1; VInt 256]) (VInt 0x42) = Raise ValueError.
Proof.
  exact (attr_encode_octet_large_element sample_can_allocate sample_Bool sample_construct
           sample_DATA_TYPES [1; 256] 0x42 (or_intror eq_refl) eq_refl).
Defined.

Lemma attr_encode_unknown_type_integer_witness :
  sample_encode (VStr "3") VNone
  = Ok (Some {| tv_type := VNone; tv_value := P_LVBytes [x00; x00; x00] |},
        None, CV (VInt 3)).
Proof.
  apply (attr_encode_unknown_type_integer sample_can_allocate sample_Bool sample_construct
           sample_DATA_TYPES (VStr "3") VNone 3);
    [right; reflexivity | reflexivity | cbv; split; discriminate
    | reflexivity].
Defined.

Lemma attr_encode_int_in_range_witness :
  exists n,
    {| tv_type := VInt 0x29; tv_value := @P_int bool value int16s (-300) |}
    = {| tv_type := VInt 0x29; tv_value := P_int int16s n |}
    /\ min_value int16s <= n <= max_value int16s.
Proof.
  apply (attr_encode_int_in_range sample_can_allocate sample_Bool sample_construct
           sample_DATA_TYPES (VStr "-300") 0x29 int16s _ None
           (CV (VStr "-300")));
    reflexivity.
Defined.

(** ** extractParams *)

Lemma force_empty_manf_same d d' w :
  force_empty_manf d = Ok d' -> dict_get p.eqb d p.MANF = Some w ->
  dict_get p.eqb d' p.MANF = Some (manf_value w).
Proof.
  unfold force_empty_manf, manf_value. intros H Hw. rewrite Hw in H.
  destruct (py_eq_empty_str w || py_eq_int w 0); inversion H; subst.
  - apply dict_get_set_same.
  - exact Hw.
Qed.

(** Reads an entry whose raw field is missing back to the initial
    dictionary. *)
Ltac entry_missing k Hv :=
  repeat (back k;
          match goal with
          | Hstep : convert _ _ k _ ?d = Ok ?d'
            |- context [dict_get p.eqb ?d' k] =>
              rewrite (convert_missing _ _ _ _ _ _ Hstep Hv)
          end);
  back k; reflexivity.

(** Reads an entry whose raw field is present at the statement that
    assigns it. *)
Ltac entry_present k Hv :=
  back k;
  match goal with
  | Hstep : convert _ _ k _ _ = Ok ?d'
    |- context [dict_get p.eqb ?d' k] =>
      let w := fresh "w" in
      let Hw := fresh "Hw" in
      let Hget := fresh "Hget" in
      destruct (convert_present _ _ _ _ _ _ _ Hstep Hv) as (w & Hw & Hget);
      exists w; split; [exact Hw|exact Hget]
  end.

(** Each entry of the extracted parameters is decided by its own raw
    field: the default when the field is missing, the converted value
    when it is present. *)
Lemma extractParams_entry raw params k :
  extractParams raw = Ok params ->
  match dict_get P.eqb raw (user_key k) with
  | None => dict_get p.eqb params k = Some (documented_default k)
  | Some v => exists w, converter k v = Ok w
                        /\ dict_get p.eqb params k = Some w
  end.
Proof.
  intros H. unfold extractParams in H. inv_bind.
  destruct (dict_get P.eqb raw (user_key k)) as [v|] eqn:Hv.
  - destruct k; cbn [user_key converter] in *;
      try (entry_present p.MANF Hv; fail);
      try match goal with
          | |- exists w, ?f v = Ok w /\ dict_get p.eqb _ ?k = _ =>
              entry_present k Hv
          end.
    (* the manufacturer code *)
    match goal with
    | Hf : force_empty_manf ?d = Ok ?d',
      Hstep : convert _ P.MANF p.MANF _ _ = Ok ?d |- _ =>
        back p.MANF;
        destruct (convert_present _ _ _ _ _ _ _ Hstep Hv) as (w & Hw & Hget);
        exists (manf_value w); rewrite Hw; split;
        [reflexivity|exact (force_empty_manf_same _ _ _ Hf Hget)]
    end.
  - destruct k; cbn [user_key documented_default] in *;
      try match goal with
          | |- dict_get p.eqb _ ?k = _ => entry_missing k Hv
          end.
    (* the manufacturer code *)
    match goal with
    | Hf : force_empty_manf ?d = Ok ?d',
      Hstep : convert _ P.MANF p.MANF _ _ = Ok ?d |- _ =>
        back p.MANF;
        assert (Hget : dict_get p.eqb d p.MANF = Some VNone);
        [rewrite (convert_missing _ _ _ _ _ _ Hstep Hv); back p.MANF;
         reflexivity
        |rewrite (force_empty_manf_same _ _ _ Hf Hget); reflexivity]
    end.
Qed.

(** X16: when [extractParams] returns, each entry of the result is
    decided by its own raw field alone: the documented default when the
    field is missing from the raw mapping, and otherwise the value the
    field's conversion gives (for the manufacturer code, the parsed value
    with an empty text or a zero replaced by the empty byte string). *)
Theorem extractParams_fieldwise (raw : raw_params) (params : params_dict)
    (k : p.key) :
  extractParams raw = Ok params ->
  match dict_get P.eqb raw (user_key k) with
  | None => dict_get p.eqb params k = Some (documented_default k)
  | Some v => exists w, converter k v = Ok w
                        /\ dict_get p.eqb params k = Some w
  end.
Proof. exact (extractParams_entry raw params k). Qed.

Lemma extractParams_fieldwise_witness :
  let raw := [(P.MANF, VStr "0x0000"); (P.TRIES, VStr "3");
              (P.STATE_ID, VStr "0x10")] in
  exists params,
    extractParams raw = Ok params
    /\ dict_get p.eqb params p.DIR = Some (VInt 0)
    /\ (exists w, converter p.MANF (VStr "0x0000") = Ok w
                  /\ dict_get p.eqb params p.MANF = Some w)
    /\ (exists w, converter p.STATE_ID (VStr "0x10") = Ok w
                  /\ dict_get p.eqb params p.STATE_ID = Some w).
Proof.
  cbv zeta.
  set (raw := [(P.MANF, VStr "0x0000"); (P.TRIES, VStr "3");
               (P.STATE_ID, VStr "0x10")]).
  destruct (extractParams raw) as [params|e] eqn:E;
    [|vm_compute in E; discriminate E].
  exists params. split; [reflexivity|].
  split; [|split].
  - exact (extractParams_fieldwise raw params p.DIR E).
  - exact (extractParams_fieldwise raw params p.MANF E).
  - exact (extractParams_fieldwise raw params p.STATE_ID E).
Defined.

(** X17: a raw field whose conversion raises makes [extractParams]
    raise: no partly converted parameters are returned. *)
Theorem extractParams_bad_field_raises (raw : raw_params) (k : p.key)
    (v : value) (e : exn) :
  dict_get P.eqb raw (user_key k) = Some v ->
  converter k v = Raise e ->
  exists e', extractParams raw = Raise e'.
Proof.
  intros Hv He. destruct (extractParams raw) as [params|e'] eqn:H.
  - pose proof (extractParams_entry raw params k H) as Hk.
    rewrite Hv in Hk. destruct Hk as (w & Hw & _). congruence.
  - eauto.
Qed.

Lemma extractParams_bad_field_raises_witness :
  exists e', extractParams [(P.CLUSTER, VInt 6); (P.TRIES, VStr "08")]
             = Raise e'.
Proof.
  apply (extractParams_bad_field_raises _ p.TRIES (VStr "08") ValueError);
    reflexivity.
Defined.

Lemma dict_set_keys (d : params_dict) k v :
  In k (map fst d) -> map fst (dict_set p.eqb d k v) = map fst d.
Proof.
  induction d as [|[k0 v0] r IH]; [intros []|].
  cbn [map fst dict_set]. intros Hin.
  destruct (p.eqb k k0) eqn:E; [reflexivity|].
  cbn [map fst]. f_equal. apply IH.
  destruct Hin as [Hin|Hin]; [|exact Hin].
  subst k0. rewrite (proj2 (p_eqb_eq k k) eq_refl) in E. discriminate.
Qed.

Lemma initial_params_keys k : In k (map fst initial_params).
Proof. destruct k; cbn; tauto. Qed.

Lemma convert_keys raw K k f d d' :
  convert raw K k f d = Ok d' ->
  map fst d = map fst initial_params ->
  map fst d' = map fst initial_params.
Proof.
  unfold convert. intros H Hd.
  destruct (dict_get P.eqb raw K); inv_bind; [|exact Hd].
  rewrite dict_set_keys; [exact Hd|].
  rewrite Hd. apply initial_params_keys.
Qed.

Lemma dict_get_keys (d : params_dict) k :
  In k (map fst d) -> exists v, dict_get p.eqb d k = Some v.
Proof.
  induction d as [|[k0 v0] r IH]; [intros []|].
  cbn [map fst dict_get]. intros Hin.
  destruct (p.eqb k k0) eqn:E; [eauto|].
  apply IH. destruct Hin as [Hin|Hin]; [|exact Hin].
  subst k0. rewrite (proj2 (p_eqb_eq k k) eq_refl) in E. discriminate.
Qed.

Lemma force_empty_manf_keys d :
  map fst d = map fst initial_params ->
  exists d', force_empty_manf d = Ok d'
             /\ map fst d' = map fst initial_params.
Proof.
  intros Hd. unfold force_empty_manf.
  destruct (dict_get_keys d p.MANF) as [w Hw].
  { rewrite Hd. apply initial_params_keys. }
  rewrite Hw. destruct (py_eq_empty_str w || py_eq_int w 0).
  - eexists. split; [reflexivity|].
    rewrite dict_set_keys; [exact Hd|].
    rewrite Hd. apply initial_params_keys.
  - eauto.
Qed.

(** X18: the dictionary [extractParams] returns has exactly the entries
    it was initialised with, in the same order: no name is added and
    none is dropped, whatever the raw mapping holds. *)
Theorem extractParams_keys (raw : raw_params) (params : params_dict) :
  extractParams raw = Ok params ->
  map fst params = map fst initial_params.
Proof.
  intros H. unfold extractParams in H. inv_bind.
  repeat first
    [ eapply convert_keys; [eassumption|]
    | match goal with
      | Hf : force_empty_manf ?d = Ok ?d' |- map fst ?d' = _ =>
          let Hk := fresh "Hk" in
          assert (Hk : map fst d = map fst initial_params);
          [|destruct (force_empty_manf_keys d Hk) as (d2 & Hd2 & Hk2);
            rewrite Hf in Hd2; inversion Hd2; subst; exact Hk2]
      end ].
  reflexivity.
Qed.

Lemma extractParams_keys_witness :
  exists params,
    extractParams [(P.ENDPOINT, VStr "1"); (P.ARGS, VList [VStr "0x10"])]
    = Ok params
    /\ map fst params = map fst initial_params.
Proof.
  set (raw := [(P.ENDPOINT, VStr "1"); (P.ARGS, VList [VStr "0x10"])]).
  destruct (extractParams raw) as [params|e] eqn:E;
    [|vm_compute in E; discriminate E].
  exists params. split; [reflexivity|].
  exact (extractParams_keys raw params E).
Defined.

Lemma convert_then raw K k f d (rest : params_dict -> result params_dict) :
  (forall v, dict_get P.eqb raw K = Some v -> exists w, f v = Ok w) ->
  map fst d = map fst initial_params ->
  (forall d', map fst d' = map fst initial_params ->
     exists params, rest d' = Ok params) ->
  exists params, bind (convert raw K k f d) rest = Ok params.
Proof.
  intros Hf Hd Hrest. unfold convert.
  destruct (dict_get P.eqb raw K) as [v|] eqn:Hv.
  - destruct (Hf v eq_refl) as [w Hw]. rewrite Hw. cbn [bind].
    apply Hrest. rewrite dict_set_keys; [exact Hd|].
    rewrite Hd. apply initial_params_keys.
  - cbn [bind]. apply Hrest. exact Hd.
Qed.

Lemma force_empty_manf_then d (rest : params_dict -> result params_dict) :
  map fst d = map fst initial_params ->
  (forall d', map fst d' = map fst initial_params ->
     exists params, rest d' = Ok params) ->
  exists params, bind (force_empty_manf d) rest = Ok params.
Proof.
  intros Hd Hrest.
  destruct (force_empty_manf_keys d Hd) as (d' & Hs & Hk).
  rewrite Hs. cbn [bind]. apply Hrest. exact Hk.
Qed.

Lemma manf_converter_total v :
  (exists w, converter p.MANF v = Ok w) -> exists w, str2int v = Ok w.
Proof.
  cbn [converter]. intros [w Hw]. destruct (str2int v); [eauto|discriminate].
Qed.

(** X19: [extractParams] returns whenever the conversion of every field
    present in the raw mapping returns; a field that is missing never
    makes it raise. *)
Theorem extractParams_returns (raw : raw_params) :
  (forall k v, dict_get P.eqb raw (user_key k) = Some v ->
     exists w, converter k v = Ok w) ->
  exists params, extractParams raw = Ok params.
Proof.
  intros H. unfold extractParams.
  assert (H0 : map fst initial_params = map fst initial_params)
    by reflexivity.
  revert H0. generalize initial_params at 1 3. intros d H0.
  repeat first
    [ match goal with
      | |- exists params, bind (convert raw _ ?k _ _) _ = Ok params =>
          apply convert_then;
          [ first [ exact (H k)
                  | exact (fun v Hv => manf_converter_total v (H k v Hv)) ]
          | assumption
          | clear d H0; intros d H0 ]
      end
    | apply force_empty_manf_then; [assumption | clear d H0; intros d H0] ].
  eauto.
Qed.

Lemma extractParams_returns_witness :
  exists params, extractParams [(P.ENDPOINT, VInt 1); (P.MANF, VInt 0)]
                 = Ok params.
Proof.
  apply extractParams_returns.
  intros k v Hv. destruct k; cbn in Hv;
    first [discriminate Hv | inversion Hv; subst v; eexists; reflexivity].
Defined.

Lemma mapM_Forall2 {A B} (f : A -> result B) l l' :
  mapM f l = Ok l' -> Forall2 (fun x y => f x = Ok y) l l'.
Proof.
  revert l'. induction l as [|x r IH]; intros l' H.
  - inversion H. constructor.
  - cbn [mapM] in H. inv_bind. constructor; auto.
Qed.

(** X20: when [extractParams] returns and the raw arguments are a list,
    the stored arguments are a list of the same length, each element the
    conversion of the raw element at its place. *)
Theorem extractParams_args (raw : raw_params) (params : params_dict)
    (l : list value) :
  extractParams raw = Ok params ->
  dict_get P.eqb raw P.ARGS = Some (VList l) ->
  exists cmd_args,
    dict_get p.eqb params p.ARGS = Some (VList cmd_args)
    /\ Forall2 (fun val lval => convert_arg val = Ok lval) l cmd_args
    /\ List.length cmd_args = List.length l.
Proof.
  intros H Hv. pose proof (extractParams_entry raw params p.ARGS H) as Hk.
  cbn [user_key converter] in Hk. rewrite Hv in Hk.
  destruct Hk as (w & Hw & Hget).
  unfold convert_args in Hw. cbn [py_iter bind] in Hw. inv_bind.
  match goal with
  | Hm : mapM convert_arg l = Ok ?x |- _ =>
      exists x; split; [exact Hget|];
      pose proof (mapM_Forall2 _ _ _ Hm) as HF;
      split; [exact HF|symmetry; exact (Forall2_length HF)]
  end.
Qed.

Lemma extractParams_args_witness :
  let raw := [(P.ARGS, VList [VStr "0x10"; VInt 2; VList [VInt 1; VInt 2]])] in
  exists params cmd_args,
    extractParams raw = Ok params
    /\ dict_get p.eqb params p.ARGS = Some (VList cmd_args)
    /\ List.length cmd_args = 3%nat.
Proof.
  cbv zeta.
  set (raw := [(P.ARGS, VList [VStr "0x10"; VInt 2; VList [VInt 1; VInt 2]])]).
  destruct (extractParams raw) as [params|e] eqn:E;
    [|vm_compute in E; discriminate E].
  destruct (extractParams_args raw params _ E eq_refl)
    as (cmd_args & Hget & _ & Hlen).
  exists params, cmd_args. split; [reflexivity|]. split; assumption.
Defined.

(** ** set_state *)

Lemma string_dict_get_set_same (d : list (string * value)) k v :
  dict_get String.eqb (dict_set String.eqb d k v) k = Some v.
Proof.
  induction d as [|[k0 v0] r IH]; cbn [dict_set dict_get].
  - rewrite String.eqb_refl. reflexivity.
  - destruct (String.eqb k k0) eqn:E; cbn [dict_get]; rewrite E; auto.
Qed.

Lemma string_dict_get_set_other (d : list (string * value)) k k' v :
  k' <> k ->
  dict_get String.eqb (dict_set String.eqb d k v) k'
  = dict_get String.eqb d k'.
Proof.
  intros Hk. induction d as [|[k0 v0] r IH]; cbn [dict_set dict_get].
  - rewrite (proj2 (String.eqb_neq k' k) Hk). reflexivity.
  - destruct (String.eqb k k0) eqn:E; cbn [dict_get].
    + apply String.eqb_eq in E. subst k0.
      rewrite (proj2 (String.eqb_neq k' k) Hk). reflexivity.
    + destruct (String.eqb k' k0); [reflexivity|exact IH].
Qed.

(** X21: [set_state] makes no call of [async_set] exactly when the
    entity has no state and [allow_create] is not the value [True] itself
    (1 or a text do not count). *)
Theorem set_state_skips (stateObj : option StateObj) (entity_id : string)
    (val : value) (key : option string) (allow_create force_update : value) :
  set_state stateObj entity_id val key allow_create force_update = None
  <-> stateObj = None /\ allow_create <> VBool true.
Proof.
  unfold set_state. split.
  - destruct stateObj as [o|].
    + destruct key; discriminate.
    + destruct (is_True allow_create) eqn:E.
      * destruct key; discriminate.
      * intros _. split; [reflexivity|]. intros ->. discriminate.
  - intros [-> Ha]. destruct allow_create as [|[|]| | | | | |];
      try reflexivity. congruence.
Qed.

(** X22: when [set_state] is given an attribute name, the call it makes
    passes [None] as the new state, the value under that name, and
    every other attribute as the existing state had it (none, when the
    entity is created). *)
Theorem set_state_attribute (stateObj : option StateObj) (entity_id : string)
    (val : value) (key : string) (allow_create force_update : value)
    (call : async_set_call) :
  set_state stateObj entity_id val (Some key) allow_create force_update
  = Some call ->
  call_entity_id call = entity_id
  /\ call_new_state call = VNone
  /\ dict_get String.eqb (call_attributes call) key = Some val
  /\ forall k, k <> key ->
       dict_get String.eqb (call_attributes call) k
       = match stateObj with
         | Some o => dict_get String.eqb (so_attributes o) k
         | None => None
         end.
Proof.
  unfold set_state. intros H.
  assert (E : call =
              {| call_entity_id := entity_id;
                 call_new_state := VNone;
                 call_attributes :=
                   dict_set String.eqb
                     match stateObj with
                     | Some o => so_attributes o
                     | None => []
                     end key val;
                 call_force_update := force_update |}).
  { destruct stateObj; [|destruct (is_True allow_create)];
      inversion H; reflexivity. }
  subst call. cbn [call_entity_id call_new_state call_attributes].
  split; [reflexivity|]. split; [reflexivity|].
  split; [apply string_dict_get_set_same|].
  intros k Hk. rewrite (string_dict_get_set_other _ _ _ _ Hk).
  destruct stateObj; reflexivity.
Qed.

Lemma set_state_attribute_witness :
  let o := {| so_state := VStr "on";
              so_attributes := [("level", VInt 3); ("unit", VStr "lx")] |} in
  exists call,
    set_state (Some o) "sensor.light" (VInt 7) (Some "level") (VBool false)
      (VBool false) = Some call
    /\ call_new_state call = VNone
    /\ dict_get String.eqb (call_attributes call) "level" = Some (VInt 7)
    /\ dict_get String.eqb (call_attributes call) "unit" = Some (VStr "lx").
Proof.
  cbv zeta. eexists. split; [reflexivity|].
  match goal with
  | |- call_new_state ?c = _ /\ _ =>
      destruct (set_state_attribute
                  (Some {| so_state := VStr "on";
                           so_attributes := [("level", VInt 3);
                                             ("unit", VStr "lx")] |})
                  "sensor.light" (VInt 7) "level" (VBool false)
                  (VBool false) c eq_refl) as (_ & H1 & H2 & H3)
  end.
  split; [exact H1|]. split; [exact H2|].
  exact (H3 "unit" ltac:(discriminate)).
Defined.

(** ** The radio probes *)

(** X23: the three probes agree: [get_radiotype] answers [UNKNOWN]
    exactly when [get_radio] returns the member [UNKNOWN] instead of a
    radio, and exactly when [get_radio_version] returns [None]; an
    application with both attributes is a ZNP one for all three. *)
Theorem radio_probes_agree {R} (zigpy_znp_version bellows_version : string)
    (app : App R) :
  (get_radiotype app = UNKNOWN <-> get_radio app = inr UNKNOWN)
  /\ (get_radiotype app = UNKNOWN
      <-> get_radio_version zigpy_znp_version bellows_version app = None)
  /\ (forall r, _znp app = Some r ->
        get_radiotype app = ZNP /\ get_radio app = inl r
        /\ get_radio_version zigpy_znp_version bellows_version app
           = Some zigpy_znp_version).
Proof.
  unfold get_radiotype, get_radio, get_radio_version.
  destruct (_znp app) as [z|]; [|destruct (_ezsp app) as [z|]];
    (split; [|split]);
    try (split; intros H; first [discriminate H | reflexivity]);
    intros r Hr; inversion Hr; subst; repeat split.
Qed.

(** ** get_ieee *)

Lemma numeric_no_colon s :
  all_chars isnumeric_char s = true -> count_char ":" s = 0.
Proof.
  induction s as [|c r IH]; [reflexivity|].
  cbn [all_chars count_char]. intros H. apply andb_true_iff in H.
  destruct H as [Hc Hr]. rewrite (IH Hr).
  rewrite Ascii.eqb_sym, (numeric_neq c ":" Hc eq_refl). reflexivity.
Qed.

Section GetIeeeProperties.
Context {EUI64 : Type} (EUI64_convert : string -> result EUI64).
Context (get_device_by_nwk : Z -> result (option EUI64)).
Context (entity_registry : string -> option RegistryEntity).
Context (device_registry : string -> option RegistryDevice).

(** X24: for a text without seven colons that [str2int] reads as an
    integer up to 0xFFF7, [get_ieee] answers from the device with that
    network address alone: its address, or [None] when there is none;
    the registries are not asked. *)
Theorem get_ieee_network_address (s : string) (n : Z) :
  count_char ":" s <> 7 ->
  str2int (VStr s) = Ok (VInt n) ->
  n <= 0xFFF7 ->
  get_ieee EUI64 EUI64_convert get_device_by_nwk entity_registry
    device_registry (VStr s)
  = (device <- get_device_by_nwk n ;;
     Ok (match device with
         | None => NoAddress
         | Some e => Address e
         end)).
Proof.
  intros Hc Hs Hn. pose proof (str2int_nonneg s n Hs) as H0.
  unfold get_ieee. rewrite (proj2 (Z.eqb_neq _ _) Hc), Hs. cbn [bind].
  assert (E : (0x0000 <=? n) && (n <=? 0xFFF7) = true).
  { apply andb_true_iff. split; apply Z.leb_le; lia. }
  rewrite E. destruct (get_device_by_nwk n) as [[e|]|x]; reflexivity.
Qed.

(** X25: an all-numeric text that starts with 0 and contains the digit
    8 or 9 makes [get_ieee] raise ValueError: neither the devices nor
    the registries are asked. *)
Theorem get_ieee_leading_zero_raises (s : string) :
  isnumeric s = true -> startswith "0" s = true ->
  has_char "8" s || has_char "9" s = true ->
  get_ieee EUI64 EUI64_convert get_device_by_nwk entity_registry
    device_registry (VStr s)
  = Raise ValueError.
Proof.
  intros Hn H0 H89. unfold get_ieee.
  assert (Hc : count_char ":" s = 0).
  { apply numeric_no_colon. destruct s; [discriminate|exact Hn]. }
  rewrite Hc. change (0 =? 7) with false. cbv iota.
  rewrite (str2int_octal_rule s Hn H0), (py_int_numeric 8 s Hn),
    (has_8_9_not_octal s H89).
  reflexivity.
Qed.
End GetIeeeProperties.

Lemma get_ieee_network_address_witness :
  get_ieee string (fun s => Ok s)
    (fun n => if n =? 0x1A2B then Ok (Some "00:11:22:33:44:55:66:77")
              else Ok None)
    (fun _ => None) (fun _ => None) (VStr "0x1A2B")
  = Ok (Address "00:11:22:33:44:55:66:77").
Proof.
  apply (get_ieee_network_address (fun s => Ok s)
           (fun n => if n =? 0x1A2B then Ok (Some "00:11:22:33:44:55:66:77")
                     else Ok None)
           (fun _ => None) (fun _ => None) "0x1A2B" 0x1A2B);
    [discriminate | reflexivity | lia].
Defined.

Lemma get_ieee_leading_zero_raises_witness :
  get_ieee string (fun s => Ok s) (fun _ => Ok None)
    (fun _ => None) (fun _ => None) (VStr "0809")
  = Raise ValueError.
Proof.
  apply get_ieee_leading_zero_raises; reflexivity.
Defined.
